(** * Shallow embedding of memecoin_bot.py (pool evaluation and ranking pipeline)

    Python values reaching the pipeline are the JSON values produced by
    [r.json()]: [pyval].  Python floats are modelled as [flt]: a rational
    for finite values (binary64 rounding is not modelled) and the three
    IEEE special values.  Exceptions are the constructors of [exn]; a
    Python function that may raise returns [result A]. *)

From Stdlib Require Import ZArith QArith List String Ascii Bool Lia Lqa.
From Stdlib Require Import Sorting.Sorted Sorting.Permutation.
Import ListNotations.
Open Scope Z_scope.

(** ** Python floats *)

Inductive flt : Type :=
| Fin (q : Q)
| PInf
| NInf
| NaN.

(** Python/IEEE comparison: [None] when one operand is NaN. *)
Definition flt_cmp (a b : flt) : option comparison :=
  match a, b with
  | NaN, _ | _, NaN => None
  | Fin p, Fin q => Some (Qcompare p q)
  | Fin _, PInf | NInf, Fin _ | NInf, PInf => Some Lt
  | PInf, Fin _ | Fin _, NInf | PInf, NInf => Some Gt
  | PInf, PInf | NInf, NInf => Some Eq
  end.

Definition flt_lt (a b : flt) : bool :=
  match flt_cmp a b with Some Lt => true | _ => false end.
Definition flt_eqb (a b : flt) : bool :=
  match flt_cmp a b with Some Eq => true | _ => false end.
Definition flt_ge (a b : flt) : bool :=
  match flt_cmp a b with Some Gt | Some Eq => true | _ => false end.
Definition flt_le (a b : flt) : bool :=
  match flt_cmp a b with Some Lt | Some Eq => true | _ => false end.

Definition flt_add (a b : flt) : flt :=
  match a, b with
  | NaN, _ | _, NaN => NaN
  | Fin p, Fin q => Fin (p + q)
  | PInf, NInf | NInf, PInf => NaN
  | PInf, _ | _, PInf => PInf
  | NInf, _ | _, NInf => NInf
  end.

Definition flt_of_Z (z : Z) : flt := Fin (inject_Z z).

(** ** Python values and exceptions *)

#[warnings="-register-all"]
Inductive pyval : Type :=
| PNone
| PBool (b : bool)
| PInt (z : Z)
| PFloat (f : flt)
| PStr (s : string)
| PList (l : list pyval)
| PDict (d : list (string * pyval)).

Inductive exn : Type :=
| TypeError
| ValueError
| KeyError
| AttributeError
| OverflowError.

Inductive result (A : Type) : Type :=
| Ok (a : A)
| Raise (e : exn).
Arguments Ok {A} a.
Arguments Raise {A} e.

Definition bind {A B : Type} (r : result A) (f : A -> result B) : result B :=
  match r with Ok a => f a | Raise e => Raise e end.

Notation "x <- r ;; k" := (bind r (fun x => k))
  (at level 61, r at next level, right associativity).

(** [bool(v)] *)
Definition truthy (v : pyval) : bool :=
  match v with
  | PNone => false
  | PBool b => b
  | PInt z => negb (z =? 0)
  | PFloat (Fin q) => negb (Qeq_bool q 0)
  | PFloat _ => true
  | PStr s => negb (String.eqb s EmptyString)
  | PList l => match l with [] => false | _ => true end
  | PDict d => match d with [] => false | _ => true end
  end.

(** [a or b] *)
Definition py_or (a b : pyval) : pyval := if truthy a then a else b.

Fixpoint assoc (k : string) (d : list (string * pyval)) : option pyval :=
  match d with
  | [] => None
  | (k', v) :: d' => if String.eqb k k' then Some v else assoc k d'
  end.

(** [v.get(k, dflt)]: only a dict has [.get]. *)
Definition py_get (v : pyval) (k : string) (dflt : pyval) : result pyval :=
  match v with
  | PDict d => Ok (match assoc k d with Some x => x | None => dflt end)
  | _ => Raise AttributeError
  end.

(** [v[k]] with a string key. *)
Definition py_index (v : pyval) (k : string) : result pyval :=
  match v with
  | PDict d => match assoc k d with Some x => Ok x | None => Raise KeyError end
  | _ => Raise TypeError
  end.

(** [float(z)] for an int: [OverflowError] once it rounds past the largest
    finite binary64. *)
Definition int_to_float (z : Z) : result flt :=
  if Z.abs z >=? 2 ^ 1024 - 2 ^ 970 then Raise OverflowError
  else Ok (flt_of_Z z).

(** Integer view of [bool] and [int] (bool is a subclass of int). *)
Definition as_int (v : pyval) : option Z :=
  match v with
  | PBool b => Some (if b then 1 else 0)
  | PInt z => Some z
  | _ => None
  end.

(** [a + b] on the values the JSON decoder produces. *)
Definition py_add (a b : pyval) : result pyval :=
  match a, b with
  | PStr s, PStr t => Ok (PStr (s ++ t))
  | PList l, PList r => Ok (PList (l ++ r))
  | _, _ =>
      match as_int a, as_int b with
      | Some x, Some y => Ok (PInt (x + y))
      | _, _ =>
          let operand v :=
            match v with
            | PFloat f => Some (Ok f)
            | _ => option_map int_to_float (as_int v)
            end in
          match operand a, operand b with
          | Some ra, Some rb =>
              x <- ra ;; y <- rb ;; Ok (PFloat (flt_add x y))
          | _, _ => Raise TypeError
          end
      end
  end.

(** [v >= z] and [v <= z] against an int constant. *)
Definition py_ge_int (v : pyval) (z : Z) : result bool :=
  match v with
  | PBool _ | PInt _ =>
      match as_int v with Some x => Ok (x >=? z) | None => Raise TypeError end
  | PFloat f => Ok (flt_ge f (flt_of_Z z))
  | _ => Raise TypeError
  end.

(** Datetimes returned by [isoparse]: wall-clock seconds since the epoch and
    the UTC offset in seconds, [None] for a naive datetime. *)
Record pdatetime : Type := mkdt {
  dt_local : Q;
  dt_offset : option Q
}.

(** [dt.replace(tzinfo=timezone.utc)] *)
Definition replace_utc (dt : pdatetime) : pdatetime :=
  mkdt (dt_local dt) (Some 0%Q).

(** [(aware_now - dt).total_seconds()]: subtracting a naive datetime from
    an aware one raises [TypeError]. *)
Definition aware_sub (now : Q) (dt : pdatetime) : result Q :=
  match dt_offset dt with
  | Some o => Ok (now - (dt_local dt - o))%Q
  | None => Raise TypeError
  end.

(** ** Configuration *)

Definition PULSECHAIN_SLUG : string := "pulsechain".
Definition MIN_LIQ_USD : Z := 3000.
Definition MIN_1H_TXNS : Z := 20.
Definition MAX_FDV_USD : Z := 20000000.
Definition MAX_POOL_AGE_HOURS : Z := 48.
Definition RESULT_CAP : nat := 10.

(** ** Pool reports and metrics *)

(** The arguments of the summary f-string of [summarize_pool]; formatting
    them never raises ([str()] of any value, [:,.8f] and [:.1f] of a float),
    so the text is kept as the tuple it is rendered from. *)
Record pool_text : Type := mkpt {
  pt_name : pyval;
  pt_base : pyval;
  pt_quote : pyval;
  pt_price : flt;
  pt_liq : flt;
  pt_fdv : flt;
  pt_buys : pyval;
  pt_sells : pyval;
  pt_txs : pyval;
  pt_age : flt;
  pt_url : pyval
}.

(** The dict [{"fdv": fdv, "liq": liq, "txs": txs, "age": age_h}]. *)
Record metrics : Type := mkm {
  m_fdv : flt;
  m_liq : flt;
  m_txs : pyval;
  m_age : flt
}.

(** The arguments of the search-path f-string. *)
Record search_text : Type := mkst {
  st_base : pyval;
  st_quote : pyval;
  st_price : flt;
  st_liq : flt;
  st_tx : pyval;
  st_url : pyval
}.

(** One element of a reply: a pool summary, a search line or a fixed text. *)
Inductive line : Type :=
| Report (t : pool_text)
| SearchLine (t : search_text)
| Msg (s : string).

(** What a command handler sends back: the lines joined by blank lines, or
    the error message of the caught exception ([f"... Error: {e}"]). *)
Inductive reply : Type :=
| RText (ls : list line)
| RError (e : exn).

Definition NO_CANDIDATES : string := "(no candidates found)".
Definition NO_RESULTS : string := "(no PulseChain results found)".

(** [for item in v]: the values [r.json()] can put there. *)
Definition py_iter (v : pyval) : result (list pyval) :=
  match v with
  | PList l => Ok l
  | PDict d => Ok (map (fun kv => PStr (fst kv)) d)
  | PStr s => Ok (map (fun c => PStr (String c EmptyString)) (list_ascii_of_string s))
  | _ => Raise TypeError
  end.

(** ** Concrete instances of the library parsers

    The pipeline below is parametric in CPython's [float(str)] and in
    dateutil's [isoparse]; these two small parsers cover the inputs of the
    concrete examples (plain decimals, and [YYYY-MM-DDTHH:MM:SS] with an
    optional [Z] or [+HH:MM]/[-HH:MM] suffix). *)

Definition obind {A B : Type} (o : option A) (f : A -> option B) : option B :=
  match o with Some a => f a | None => None end.

Notation "x <-? o ;; k" := (obind o (fun x => k))
  (at level 61, o at next level, right associativity).

Definition digit_val (c : ascii) : option Z :=
  let n := Z.of_nat (nat_of_ascii c) in
  if (48 <=? n) && (n <=? 57) then Some (n - 48) else None.

(** The maximal run of digits: value, length, rest. *)
Fixpoint take_digits (l : list ascii) (acc : Z) (cnt : nat) : Z * nat * list ascii :=
  match l with
  | c :: r =>
      match digit_val c with
      | Some d => take_digits r (acc * 10 + d) (S cnt)
      | None => (acc, cnt, l)
      end
  | [] => (acc, cnt, [])
  end.

Definition parse_decimal (s : string) : option flt :=
  if String.eqb s "inf" then Some PInf
  else if String.eqb s "-inf" then Some NInf
  else if String.eqb s "nan" then Some NaN
  else
  let l := list_ascii_of_string s in
  let '(neg, l1) :=
    match l with
    | "-"%char :: r => (true, r)
    | "+"%char :: r => (false, r)
    | _ => (false, l)
    end in
  let sgn (z : Z) := if neg then - z else z in
  let '(ip, n1, l2) := take_digits l1 0 0 in
  match l2 with
  | [] => match n1 with O => None | _ => Some (Fin (inject_Z (sgn ip))) end
  | "."%char :: l3 =>
      let '(fp, n2, l4) := take_digits l3 0 0 in
      match l4, (n1 + n2)%nat with
      | [], O => None
      | [], _ =>
          let den := 10 ^ Z.of_nat n2 in
          Some (Fin (Qmake (sgn (ip * den + fp)) (Z.to_pos den)))
      | _, _ => None
      end
  | _ => None
  end.

Fixpoint fixed_digits (n : nat) (l : list ascii) (acc : Z) : option (Z * list ascii) :=
  match n with
  | O => Some (acc, l)
  | S n' =>
      match l with
      | c :: r => d <-? digit_val c ;; fixed_digits n' r (acc * 10 + d)
      | [] => None
      end
  end.

Definition expect (c : ascii) (l : list ascii) : option (list ascii) :=
  match l with
  | c' :: r => if Ascii.eqb c c' then Some r else None
  | [] => None
  end.

(** Days from 1970-01-01 to the proleptic Gregorian date [y-m-d]. *)
Definition days_from_civil (y m d : Z) : Z :=
  let y' := if m <=? 2 then y - 1 else y in
  let era := y' / 400 in
  let yoe := y' - era * 400 in
  let doy := (153 * (m + (if m >? 2 then -3 else 9)) + 2) / 5 + d - 1 in
  let doe := yoe * 365 + yoe / 4 - yoe / 100 + doy in
  era * 146097 + doe - 719468.

Definition iso_basic (s : string) : option pdatetime :=
  let l := list_ascii_of_string s in
  yr <-? fixed_digits 4 l 0 ;; l <-? expect "-" (snd yr) ;;
  mo <-? fixed_digits 2 l 0 ;; l <-? expect "-" (snd mo) ;;
  dy <-? fixed_digits 2 l 0 ;; l <-? expect "T" (snd dy) ;;
  hh <-? fixed_digits 2 l 0 ;; l <-? expect ":" (snd hh) ;;
  mi <-? fixed_digits 2 l 0 ;; l <-? expect ":" (snd mi) ;;
  se <-? fixed_digits 2 l 0 ;;
  let '(y, m, d, h, n, sec) := (fst yr, fst mo, fst dy, fst hh, fst mi, fst se) in
  if negb ((1 <=? m) && (m <=? 12) && (1 <=? d) && (d <=? 31)
           && (h <? 24) && (n <? 60) && (sec <? 60)) then None else
  let local := days_from_civil y m d * 86400 + h * 3600 + n * 60 + sec in
  off <-? (match snd se with
           | [] => Some None
           | ["Z"%char] => Some (Some 0)
           | c :: r =>
               let sg := if Ascii.eqb c "+" then Some 1
                         else if Ascii.eqb c "-" then Some (-1) else None in
               g <-? sg ;;
               oh <-? fixed_digits 2 r 0 ;; r <-? expect ":" (snd oh) ;;
               om <-? fixed_digits 2 r 0 ;;
               match snd om with
               | [] => Some (Some (g * (fst oh * 3600 + fst om * 60)))
               | _ => None
               end
           end) ;;
  Some (mkdt (inject_Z local) (option_map inject_Z off)).

(** A fixed reading of the clock: 2025-10-14T12:00:00Z. *)
Definition NOW_2025_10_14 : Q := inject_Z (days_from_civil 2025 10 14 * 86400 + 12 * 3600).

(** ** Sample inputs *)

Section Samples.
Local Open Scope string_scope.

(** A fresh, liquid, busy pool (the spec's end-to-end example). *)
Definition fresh_pool : pyval :=
  PDict [("attributes",
          PDict [("reserve_in_usd", PStr "5000"); ("buys_1h", PInt 30);
                 ("sells_1h", PInt 10); ("fdv_usd", PInt 1000000);
                 ("pool_created_at", PStr "2025-10-14T10:00:00Z")])].

Definition envelope_15 : pyval := PDict [("data", PList (repeat fresh_pool 15))].




Definition negative_count_pool : pyval :=
  PDict [("attributes", PDict [("buys_1h", PInt (-5))])].

Definition future_ts : string := "2025-10-14T14:00:00Z".

(** An ASCII string literal as a Python [str] (its code points). *)
Definition utext (s : string) : list Z :=
  map (fun c => Z.of_nat (nat_of_ascii c)) (list_ascii_of_string s).

Definition sample_text : pool_text :=
  mkpt (PStr "Doge") (PStr "DOGE") (PStr "WPLS") (Fin 1) (flt_of_Z 5000) (Fin 0)
       (PInt 30) (PInt 10) (PInt 40) (Fin 2) (PStr "https://example.org/pool").

Definition dex_pair (chain : string) : pyval :=
  PDict [("chainId", PStr chain);
         ("baseToken", PDict [("symbol", PStr "DOGE")]);
         ("quoteToken", PDict [("symbol", PStr "WPLS")]);
         ("url", PStr "https://example.org/pair");
         ("liquidity", PDict [("usd", PFloat (Fin 5000))]);
         ("txns", PDict [("h1", PDict [("buys", PInt 3); ("sells", PInt 4)])]);
         ("priceUsd", PStr "0.5")].


End Samples.

Section Pipeline.

(** [float(s)] for a string (CPython builtin), [None] where it raises
    [ValueError]. *)
Variable parse_float : string -> option flt.
(** [dateutil.parser.isoparse] on a string, [None] where it raises. *)
Variable isoparse : string -> option pdatetime.
(** [datetime.now(timezone.utc)], in seconds since the epoch. *)
Variable now : Q.

(** [float(x)] *)
Definition py_float (x : pyval) : result flt :=
  match x with
  | PBool b => Ok (flt_of_Z (if b then 1 else 0))
  | PInt z => int_to_float z
  | PFloat f => Ok f
  | PStr s => match parse_float s with Some f => Ok f | None => Raise ValueError end
  | _ => Raise TypeError
  end.

(** [def usd(x): try: return float(x) if x else 0.0 except: return 0.0] *)
Definition usd (x : pyval) : flt :=
  if truthy x then
    match py_float x with Ok f => f | Raise _ => Fin 0 end
  else Fin 0.

(** [hours_since(dt_iso)]; [isoparse] of a non-string raises. *)
Definition hours_since (dt_iso : pyval) : flt :=
  let parsed :=
    match dt_iso with
    | PStr s => match isoparse s with Some dt => Ok dt | None => Raise ValueError end
    | _ => Raise TypeError
    end in
  let body :=
    dt <- parsed ;;
    let dt := match dt_offset dt with None => replace_utc dt | Some _ => dt end in
    secs <- aware_sub now dt ;;
    Ok (Fin (secs / 3600)%Q) in
  match body with Ok h => h | Raise _ => PInf end.

Definition summarize_pool (p : pyval) : result (pool_text * metrics) :=
  attrs <- py_get p "attributes" (PDict []) ;;
  v_fdv <- py_get attrs "fdv_usd" PNone ;;
  let fdv := usd v_fdv in
  v_liq <- py_get attrs "reserve_in_usd" PNone ;;
  let liq := usd v_liq in
  v_price <- py_get attrs "price_in_usd" PNone ;;
  let price := usd v_price in
  v_buys <- py_get attrs "buys_1h" PNone ;;
  let buys := py_or v_buys (PInt 0) in
  v_sells <- py_get attrs "sells_1h" PNone ;;
  let sells := py_or v_sells (PInt 0) in
  txs <- py_add buys sells ;;
  v_created <- py_get attrs "pool_created_at" PNone ;;
  let age_h := hours_since v_created in
  base <- py_get attrs "base_token_symbol" PNone ;;
  quote <- py_get attrs "quote_token_symbol" PNone ;;
  url <- py_get attrs "url" PNone ;;
  v_name <- py_get attrs "base_token_name" PNone ;;
  let name := py_or v_name base in
  Ok (mkpt name base quote price liq fdv buys sells txs age_h url,
      mkm fdv liq txs age_h).

(** [looks_like_memecoin(m)]: [and] short-circuits left to right. *)
Definition looks_like_memecoin (m : metrics) : result bool :=
  if flt_ge (m_liq m) (flt_of_Z MIN_LIQ_USD) then
    b <- py_ge_int (m_txs m) MIN_1H_TXNS ;;
    if b then
      Ok (flt_le (m_fdv m) (flt_of_Z MAX_FDV_USD)
          && flt_le (m_age m) (flt_of_Z MAX_POOL_AGE_HOURS))
    else Ok false
  else Ok false.

(** The loop of [scan_geckoterminal] appending [(m, text)] for eligible
    items. *)
Fixpoint collect_eligible (items : list pyval) : result (list (metrics * pool_text)) :=
  match items with
  | [] => Ok []
  | item :: rest =>
      r <- summarize_pool item ;;
      b <- looks_like_memecoin (snd r) ;;
      rs <- collect_eligible rest ;;
      Ok (if b then (snd r, fst r) :: rs else rs)
  end.

(** ** Ranking: [results.sort(key=lambda x: (x[0]["txs"], x[0]["liq"]), reverse=True)] *)

(** [x[0]["txs"]] as a number in comparisons; every result holds a numeric
    [txs], since [looks_like_memecoin] raised on the others. *)
Definition num_of (v : pyval) : flt :=
  match v with
  | PBool b => flt_of_Z (if b then 1 else 0)
  | PInt z => flt_of_Z z
  | PFloat f => f
  | _ => NaN
  end.

Definition sort_key (r : metrics * pool_text) : flt * flt :=
  (num_of (m_txs (fst r)), m_liq (fst r)).

(** Python's tuple [<]: the first components decide unless they are [==]. *)
Definition key_lt (a b : flt * flt) : bool :=
  if flt_eqb (fst a) (fst b) then
    if flt_eqb (snd a) (snd b) then false else flt_lt (snd a) (snd b)
  else flt_lt (fst a) (fst b).

(** Python's tuple [==]. *)
Definition key_eqb (a b : flt * flt) : bool :=
  flt_eqb (fst a) (fst b) && flt_eqb (snd a) (snd b).

(** [list.sort] with [reverse=True] is a stable sort in descending key
    order (records with equal keys keep their original order); on NaN-free
    keys that result is unique, and this insertion sort computes it: an
    element goes in front of the first element whose key is not greater. *)
Fixpoint insert_desc (x : metrics * pool_text) (l : list (metrics * pool_text))
  : list (metrics * pool_text) :=
  match l with
  | [] => [x]
  | y :: ys =>
      if key_lt (sort_key x) (sort_key y) then y :: insert_desc x ys
      else x :: y :: ys
  end.

Fixpoint sort_desc (l : list (metrics * pool_text)) : list (metrics * pool_text) :=
  match l with
  | [] => []
  | x :: r => insert_desc x (sort_desc r)
  end.

(** ** [scan_geckoterminal], from the decoded response [data] on *)

Definition scan_geckoterminal (data : pyval) : result (list line) :=
  pools_v <- py_get data "data" (PList []) ;;
  pools <- py_iter pools_v ;;
  results <- collect_eligible pools ;;
  match firstn RESULT_CAP (map (fun r => Report (snd r)) (sort_desc results)) with
  | [] => Ok [Msg NO_CANDIDATES]
  | picks => Ok picks
  end.

(** The [trending] / [new] handlers' final reply. *)
Definition scan_reply (data : pyval) : reply :=
  match scan_geckoterminal data with
  | Ok picks => RText picks
  | Raise e => RError e
  end.

(** ** The search path, from the decoded response [js] on *)

(** [p.get("chainId") not in ("pulsechain", "pulse")] negated. *)
Definition chain_matches (v : pyval) : bool :=
  match v with
  | PStr s => String.eqb s "pulsechain" || String.eqb s "pulse"
  | _ => false
  end.

(** One iteration of the loop over [pairs]: [None] on [continue]. *)
Definition search_pair (p : pyval) : result (option search_text) :=
  chain <- py_get p "chainId" PNone ;;
  if negb (chain_matches chain) then Ok None else
  bt <- py_index p "baseToken" ;;
  base <- py_index bt "symbol" ;;
  qt <- py_index p "quoteToken" ;;
  quote <- py_index qt "symbol" ;;
  url <- py_get p "url" PNone ;;
  lq <- py_get p "liquidity" (PDict []) ;;
  lq_usd <- py_get lq "usd" PNone ;;
  let liq := usd lq_usd in
  t1 <- py_get p "txns" (PDict []) ;;
  h1 <- py_get t1 "h1" (PDict []) ;;
  buys <- py_get h1 "buys" (PInt 0) ;;
  t2 <- py_get p "txns" (PDict []) ;;
  h1' <- py_get t2 "h1" (PDict []) ;;
  sells <- py_get h1' "sells" (PInt 0) ;;
  tx <- py_add buys sells ;;
  price <- py_get p "priceUsd" PNone ;;
  fprice <- py_float price ;;
  Ok (Some (mkst base quote fprice liq tx url)).

Fixpoint search_collect (pairs : list pyval) : result (list search_text) :=
  match pairs with
  | [] => Ok []
  | p :: rest =>
      o <- search_pair p ;;
      ls <- search_collect rest ;;
      Ok (match o with Some l => l :: ls | None => ls end)
  end.

(** The [search] handler's final reply once [js] is fetched. *)
Definition search_reply (js : pyval) : reply :=
  match (pairs_v <- py_get js "pairs" (PList []) ;;
         pairs <- py_iter pairs_v ;;
         search_collect pairs) with
  | Ok [] => RText [Msg NO_RESULTS]
  | Ok ls => RText (map SearchLine (firstn RESULT_CAP ls))
  | Raise e => RError e
  end.

(** Values that compare with numbers: [bool], [int] and [float]. *)
Definition is_number (v : pyval) : bool :=
  match v with PBool _ | PInt _ | PFloat _ => true | _ => false end.

(** Total comparison used to reason about NaN-free keys. *)
Definition proper (f : flt) : bool := match f with NaN => false | _ => true end.

Definition fcmp (a b : flt) : comparison :=
  match flt_cmp a b with Some c => c | None => Eq end.

Definition lex_cmp (a b : flt * flt) : comparison :=
  match fcmp (fst a) (fst b) with Eq => fcmp (snd a) (snd b) | c => c end.

Definition key_proper (k : flt * flt) : Prop :=
  proper (fst k) = true /\ proper (snd k) = true.

(** [d.get(k)] on a dict's entries. *)
Definition dict_get (d : list (string * pyval)) (k : string) : pyval :=
  match assoc k d with Some v => v | None => PNone end.


(** A search pair that is a dict and passes the chain check. *)
Definition pair_on_chain (p : pyval) : bool :=
  match p with PDict d => chain_matches (dict_get d "chainId") | _ => false end.

(** ** The [search] command's argument: [(text or "").split(maxsplit=1)] *)

(** A Python [str] as its sequence of Unicode code points. *)
Definition ustr : Type := list Z.

(** CPython's whitespace test used by [str.split()] ([Py_UNICODE_ISSPACE]):
    tab to carriage return, the separators 0x1c-0x1f, space, NEL (0x85),
    no-break space (0xa0), ogham space mark (0x1680), the spaces
    0x2000-0x200a, the line and paragraph separators 0x2028 and 0x2029,
    0x202f, 0x205f and the ideographic space 0x3000. *)
Definition is_space (c : Z) : bool :=
  ((9 <=? c) && (c <=? 13)) || ((28 <=? c) && (c <=? 32)) ||
  (c =? 133) || (c =? 160) || (c =? 5760) ||
  ((8192 <=? c) && (c <=? 8202)) || (c =? 8232) || (c =? 8233) ||
  (c =? 8239) || (c =? 8287) || (c =? 12288).

Fixpoint skip_ws (l : ustr) : ustr :=
  match l with
  | c :: r => if is_space c then skip_ws r else l
  | [] => []
  end.

Fixpoint take_word (l : ustr) : ustr * ustr :=
  match l with
  | c :: r =>
      if is_space c then ([], l)
      else let (w, rest) := take_word r in (c :: w, rest)
  | [] => ([], [])
  end.

(** CPython's whitespace split with [maxsplit = 1]: one word, then the rest
    of the string from its first non-space character, if any. *)
Definition split_max1 (l : ustr) : list ustr :=
  match skip_ws l with
  | [] => []
  | l1 =>
      let (w, rest) := take_word l1 in
      match skip_ws rest with
      | [] => [w]
      | tail => [w; tail]
      end
  end.

(** The messages the [search] handler sends, in order. *)
Inductive bot_msg : Type :=
| Usage
| Searching (term : ustr)
| Answer (r : reply).

(** [search(update, _)] with the message text ([None] for a message without
    text) and the fetch of [DEX_SEARCH] with [q=term] (decoded JSON, or the
    transport / HTTP status exception); the handler's [except] turns every
    exception after the first reply into the error reply. *)
Definition search_handler (text : option ustr)
  (fetch_search : ustr -> result pyval) : list bot_msg :=
  let raw := match text with Some t => t | None => [] end in
  match split_max1 raw with
  | _ :: term :: _ =>
      [Searching term;
       Answer (match fetch_search term with
               | Ok js => search_reply js
               | Raise e => RError e
               end)]
  | _ => [Usage]
  end.


(** Number of items whose summary passes [looks_like_memecoin]. *)
Fixpoint eligible_count (items : list pyval) : nat :=
  match items with
  | [] => O
  | item :: rest =>
      match summarize_pool item with
      | Ok (_, m) =>
          match looks_like_memecoin m with
          | Ok true => S (eligible_count rest)
          | _ => eligible_count rest
          end
      | Raise _ => eligible_count rest
      end
  end.


(** * Properties *)

(** The instant of a parsed datetime, naive ones read as UTC. *)
Definition utc_seconds (d : pdatetime) : Q :=
  (dt_local d - match dt_offset d with Some o => o | None => 0 end)%Q.

(** C1: on metrics whose [txs] is a number (as the summarizer produces for
    numeric counts), [looks_like_memecoin] never raises and returns [True]
    exactly when all four threshold comparisons hold; so making any one of
    them fail makes the result [False]. *)
Theorem looks_like_memecoin_conjunction (m : metrics)
  (Hnum : is_number (m_txs m) = true) :
  (looks_like_memecoin m = Ok true <->
     flt_ge (m_liq m) (flt_of_Z MIN_LIQ_USD) = true /\
     py_ge_int (m_txs m) MIN_1H_TXNS = Ok true /\
     flt_le (m_fdv m) (flt_of_Z MAX_FDV_USD) = true /\
     flt_le (m_age m) (flt_of_Z MAX_POOL_AGE_HOURS) = true) /\
  (looks_like_memecoin m = Ok false <->
     ~ (flt_ge (m_liq m) (flt_of_Z MIN_LIQ_USD) = true /\
        py_ge_int (m_txs m) MIN_1H_TXNS = Ok true /\
        flt_le (m_fdv m) (flt_of_Z MAX_FDV_USD) = true /\
        flt_le (m_age m) (flt_of_Z MAX_POOL_AGE_HOURS) = true)).
Proof.
  destruct m as [fdv liq txs age]; simpl in *.
  assert (Htx : exists b, py_ge_int txs MIN_1H_TXNS = Ok b).
  { destruct txs; try discriminate; simpl; eauto. }
  destruct Htx as [b Hb].
  unfold looks_like_memecoin; simpl; rewrite Hb.
  destruct (flt_ge liq (flt_of_Z MIN_LIQ_USD)), b,
           (flt_le fdv (flt_of_Z MAX_FDV_USD)),
           (flt_le age (flt_of_Z MAX_POOL_AGE_HOURS));
    simpl; split; split; intros H;
    repeat match goal with
           | H : _ /\ _ |- _ => destruct H
           end;
    try congruence; try tauto; try (intros [? [? [? ?]]]; congruence);
    try discriminate.
  all: try (repeat split; reflexivity).
  all: exfalso; apply H; repeat split; reflexivity.
Qed.

(** C4: [usd] is total (it never raises): it is [0.0] for every falsy input
    (null / absent, [""], [0]), [0.0] whenever [float(x)] raises (non-numeric
    strings, lists, dicts), and the parsed float otherwise. *)
Theorem usd_total_default (x : pyval) :
  usd PNone = Fin 0 /\ usd (PStr EmptyString) = Fin 0 /\
  (truthy x = false -> usd x = Fin 0) /\
  (forall e, py_float x = Raise e -> usd x = Fin 0) /\
  (forall f, truthy x = true -> py_float x = Ok f -> usd x = f).
Proof.
  unfold usd; repeat split.
  - intros H; rewrite H; reflexivity.
  - intros e H; rewrite H; destruct (truthy x); reflexivity.
  - intros f Ht H; rewrite Ht, H; reflexivity.
Qed.

(** C5 (amended): [hours_since] returns +inf or a finite number of hours;
    it is +inf for null, non-string or unparsable timestamps, and a metrics
    value with age +inf is never eligible; a parsed timestamp gives
    [(now - instant) / 3600], which is negative for an instant after [now]. *)
Theorem hours_since_inf_or_elapsed (x : pyval) :
  (hours_since x = PInf \/ exists q, hours_since x = Fin q) /\
  ((forall s, x <> PStr s) -> hours_since x = PInf) /\
  (forall s, x = PStr s -> isoparse s = None -> hours_since x = PInf) /\
  (forall s d, x = PStr s -> isoparse s = Some d ->
     hours_since x = Fin ((now - utc_seconds d) / 3600)%Q) /\
  (forall m, m_age m = PInf -> looks_like_memecoin m <> Ok true).
Proof.
  unfold hours_since, aware_sub, utc_seconds.
  repeat split.
  - destruct x; simpl; auto.
    destruct (isoparse s) as [[l [o|]]|]; simpl; eauto.
  - intros H; destruct x; simpl; auto. exfalso; apply (H s); reflexivity.
  - intros s Hx Hp; subst x; rewrite Hp; reflexivity.
  - intros s d Hx Hp; subst x; rewrite Hp; simpl.
    destruct d as [l [o|]]; simpl; reflexivity.
  - intros [fdv liq txs age] Hage; simpl in Hage; subst age.
    unfold looks_like_memecoin; simpl.
    destruct (flt_ge liq (flt_of_Z MIN_LIQ_USD)); [|discriminate].
    destruct (py_ge_int txs MIN_1H_TXNS) as [[|]|]; simpl;
      rewrite ?andb_false_r; discriminate.
Qed.

(** C10: a parsable timestamp without a zone offset gets the same age as
    the same wall-clock time with UTC given explicitly. *)
Theorem hours_since_naive_as_utc (s s' : string) (d : pdatetime)
  (Hs : isoparse s = Some d) (Hnaive : dt_offset d = None)
  (Hs' : isoparse s' = Some (mkdt (dt_local d) (Some 0%Q))) :
  hours_since (PStr s) = hours_since (PStr s').
Proof.
  unfold hours_since; rewrite Hs, Hs'.
  destruct d as [l o]; simpl in Hnaive; subst o; reflexivity.
Qed.

(** ** Order facts on NaN-free keys *)

Lemma flt_cmp_proper (a b : flt) :
  proper a = true -> proper b = true -> flt_cmp a b = Some (fcmp a b).
Proof. destruct a, b; simpl; unfold fcmp; simpl; congruence. Qed.

Lemma fcmp_antisym (a b : flt) :
  proper a = true -> proper b = true -> fcmp b a = CompOpp (fcmp a b).
Proof.
  destruct a, b; simpl; try discriminate; intros _ _; unfold fcmp; simpl; auto.
  symmetry; apply Qcompare_antisym.
Qed.

Lemma fcmp_trans_lt (a b c : flt) :
  fcmp a b = Lt -> fcmp b c = Lt -> fcmp a c = Lt.
Proof.
  destruct a, b, c; unfold fcmp; simpl; try discriminate; auto.
  rewrite <- !Qlt_alt; apply Qlt_trans.
Qed.

Lemma fcmp_eq_l (a b c : flt) :
  proper a = true -> proper b = true ->
  fcmp a b = Eq -> fcmp a c = fcmp b c.
Proof.
  destruct a, b, c; unfold fcmp; simpl; try discriminate; auto.
  intros _ _ H; apply Qeq_alt in H; rewrite H; reflexivity.
Qed.

Lemma fcmp_eq_r (a b c : flt) :
  proper a = true -> proper b = true -> proper c = true ->
  fcmp b c = Eq -> fcmp a b = fcmp a c.
Proof.
  intros Ha Hb Hc H.
  rewrite (fcmp_antisym b a), (fcmp_antisym c a) by assumption.
  rewrite (fcmp_eq_l b c a) by assumption; reflexivity.
Qed.

Lemma fcmp_refl (a : flt) : proper a = true -> fcmp a a = Eq.
Proof.
  destruct a; simpl; try discriminate; unfold fcmp; simpl; auto.
  intros _; apply Qeq_alt; reflexivity.
Qed.

Lemma key_lt_lex (a b : flt * flt) :
  key_proper a -> key_proper b -> key_lt a b = true <-> lex_cmp a b = Lt.
Proof.
  destruct a as [a1 a2], b as [b1 b2]; intros [Ha1 Ha2] [Hb1 Hb2]; simpl in *.
  unfold key_lt, lex_cmp, flt_eqb, flt_lt; simpl.
  rewrite (flt_cmp_proper a1 b1), (flt_cmp_proper a2 b2) by assumption.
  destruct (fcmp a1 b1), (fcmp a2 b2); split; congruence.
Qed.

Lemma key_eqb_lex (a b : flt * flt) :
  key_proper a -> key_proper b -> key_eqb a b = true <-> lex_cmp a b = Eq.
Proof.
  destruct a as [a1 a2], b as [b1 b2]; intros [Ha1 Ha2] [Hb1 Hb2]; simpl in *.
  unfold key_eqb, lex_cmp, flt_eqb; simpl.
  rewrite (flt_cmp_proper a1 b1), (flt_cmp_proper a2 b2) by assumption.
  destruct (fcmp a1 b1), (fcmp a2 b2); simpl; split; congruence.
Qed.

Lemma lex_antisym (a b : flt * flt) :
  key_proper a -> key_proper b -> lex_cmp b a = CompOpp (lex_cmp a b).
Proof.
  destruct a as [a1 a2], b as [b1 b2]; intros [Ha1 Ha2] [Hb1 Hb2];
    unfold lex_cmp; simpl in *.
  rewrite (fcmp_antisym a1 b1), (fcmp_antisym a2 b2) by assumption.
  destruct (fcmp a1 b1); reflexivity.
Qed.

Lemma lex_eq_r (a b c : flt * flt) :
  key_proper a -> key_proper b -> key_proper c ->
  lex_cmp b c = Eq -> lex_cmp a b = lex_cmp a c.
Proof.
  destruct a as [a1 a2], b as [b1 b2], c as [c1 c2];
    intros [Ha1 Ha2] [Hb1 Hb2] [Hc1 Hc2]; unfold lex_cmp; simpl in *.
  destruct (fcmp b1 c1) eqn:E1; try discriminate; intros E2.
  rewrite (fcmp_eq_r a1 b1 c1), (fcmp_eq_r a2 b2 c2) by assumption.
  reflexivity.
Qed.

Lemma lex_trans_lt (a b c : flt * flt) :
  key_proper a -> key_proper b -> key_proper c ->
  lex_cmp a b = Lt -> lex_cmp b c = Lt -> lex_cmp a c = Lt.
Proof.
  destruct a as [a1 a2], b as [b1 b2], c as [c1 c2];
    intros [Ha1 Ha2] [Hb1 Hb2] [Hc1 Hc2]; unfold lex_cmp; simpl in *.
  destruct (fcmp a1 b1) eqn:E1, (fcmp b1 c1) eqn:E2; try discriminate; intros H1 H2.
  - rewrite (fcmp_eq_l a1 b1 c1), E2 by assumption.
    apply (fcmp_trans_lt _ b2); assumption.
  - rewrite (fcmp_eq_l a1 b1 c1), E2 by assumption; reflexivity.
  - rewrite <- (fcmp_eq_r a1 b1 c1), E1 by assumption; reflexivity.
  - rewrite (fcmp_trans_lt a1 b1 c1) by assumption; reflexivity.
Qed.

Lemma key_lt_asym (a b : flt * flt) :
  key_proper a -> key_proper b -> key_lt a b = true -> key_lt b a = false.
Proof.
  intros Ha Hb H; apply key_lt_lex in H; auto.
  destruct (key_lt b a) eqn:E; auto.
  apply key_lt_lex in E; auto.
  rewrite lex_antisym in E by auto; rewrite H in E; discriminate.
Qed.

Lemma lex_eq_l (a b c : flt * flt) :
  key_proper a -> key_proper b -> key_proper c ->
  lex_cmp a b = Eq -> lex_cmp a c = lex_cmp b c.
Proof.
  intros Ha Hb Hc H.
  assert (Hba : lex_cmp b a = Eq) by (rewrite lex_antisym, H by auto; reflexivity).
  rewrite (lex_antisym c a), (lex_antisym c b) by auto.
  rewrite (lex_eq_r c b a) by auto; reflexivity.
Qed.

Lemma key_ge_trans (a b c : flt * flt) :
  key_proper a -> key_proper b -> key_proper c ->
  key_lt a b = false -> key_lt b c = false -> key_lt a c = false.
Proof.
  intros Ha Hb Hc H1 H2.
  destruct (key_lt a c) eqn:E; auto.
  apply key_lt_lex in E; auto.
  assert (N1 : lex_cmp a b <> Lt) by (intros X; apply key_lt_lex in X; congruence).
  assert (N2 : lex_cmp b c <> Lt) by (intros X; apply key_lt_lex in X; congruence).
  exfalso.
  destruct (lex_cmp a b) eqn:Eab; try congruence.
  - rewrite (lex_eq_l a b c) in E by auto; congruence.
  - destruct (lex_cmp b c) eqn:Ebc; try congruence.
    + rewrite <- (lex_eq_r a b c) in E by auto; congruence.
    + assert (Hcb : lex_cmp c b = Lt) by (rewrite lex_antisym, Ebc by auto; reflexivity).
      assert (Hba : lex_cmp b a = Lt) by (rewrite lex_antisym, Eab by auto; reflexivity).
      assert (Hca : lex_cmp c a = Lt) by (apply (lex_trans_lt _ b); auto).
      rewrite lex_antisym, E in Hca by auto; discriminate.
Qed.

Lemma key_lt_not_eq (a b k : flt * flt) :
  key_proper a -> key_proper b -> key_proper k ->
  key_lt a b = true -> key_eqb a k = true -> key_eqb b k = false.
Proof.
  intros Ha Hb Hk H1 H2.
  apply key_lt_lex in H1; auto; apply key_eqb_lex in H2; auto.
  destruct (key_eqb b k) eqn:E; auto.
  apply key_eqb_lex in E; auto.
  rewrite (lex_eq_r a b k) in H1 by auto; congruence.
Qed.

(** ** The ranking sort *)

Definition R_desc (a b : metrics * pool_text) : Prop :=
  key_lt (sort_key a) (sort_key b) = false.

Lemma eligible_key_proper (r : metrics * pool_text) :
  looks_like_memecoin (fst r) = Ok true -> key_proper (sort_key r).
Proof.
  destruct r as [[fdv liq txs age] t]; unfold looks_like_memecoin, sort_key;
    simpl.
  destruct (flt_ge liq (flt_of_Z MIN_LIQ_USD)) eqn:Hl; [|discriminate].
  intros H; split.
  - destruct txs; simpl in *; try discriminate; try reflexivity.
    destruct f; simpl in *; try reflexivity; discriminate.
  - destruct liq; simpl in *; try reflexivity; discriminate.
Qed.

Lemma insert_desc_perm (x : metrics * pool_text) (l : list (metrics * pool_text)) :
  Permutation (x :: l) (insert_desc x l).
Proof.
  induction l as [|y ys IH]; simpl; [reflexivity|].
  destruct (key_lt (sort_key x) (sort_key y)); [|reflexivity].
  rewrite perm_swap; constructor; exact IH.
Qed.

Lemma sort_desc_perm (l : list (metrics * pool_text)) : Permutation l (sort_desc l).
Proof.
  induction l as [|x r IH]; simpl; [constructor|].
  rewrite <- insert_desc_perm; constructor; exact IH.
Qed.

Lemma insert_desc_sorted (x : metrics * pool_text) (l : list (metrics * pool_text)) :
  Forall (fun r => key_proper (sort_key r)) (x :: l) ->
  StronglySorted R_desc l -> StronglySorted R_desc (insert_desc x l).
Proof.
  induction l as [|y ys IH]; intros Hp Hs; simpl.
  - repeat constructor.
  - inversion Hp as [|? ? Hx Hyys]; inversion Hyys as [|? ? Hy Hys]; subst.
    inversion Hs as [|? ? Hs' Hf]; subst.
    destruct (key_lt (sort_key x) (sort_key y)) eqn:E.
    + constructor.
      * apply IH; [constructor; assumption | exact Hs'].
      * apply (Permutation_Forall (insert_desc_perm x ys)).
        constructor; [|exact Hf].
        unfold R_desc; apply key_lt_asym; assumption.
    + constructor; [exact Hs|].
      constructor; [exact E|].
      rewrite Forall_forall in Hf, Hys |- *; intros z Hz.
      apply (key_ge_trans _ (sort_key y)); auto.
      apply (Hf z Hz).
Qed.

Lemma sort_desc_sorted (l : list (metrics * pool_text)) :
  Forall (fun r => key_proper (sort_key r)) l -> StronglySorted R_desc (sort_desc l).
Proof.
  induction l as [|x r IH]; intros Hp; simpl; [constructor|].
  inversion Hp; subst.
  apply insert_desc_sorted; [|auto].
  constructor; [assumption|].
  apply (Permutation_Forall (sort_desc_perm r)); assumption.
Qed.

Lemma key_eqb_proper (a k : flt * flt) : key_eqb a k = true -> key_proper k.
Proof.
  destruct a as [a1 a2], k as [k1 k2]; unfold key_eqb, key_proper, flt_eqb; simpl.
  destruct a1, k1, a2, k2; simpl; rewrite ?andb_false_r; intros H;
    try discriminate; split; reflexivity.
Qed.

Lemma insert_desc_filter (k : flt * flt) (x : metrics * pool_text)
  (l : list (metrics * pool_text)) :
  Forall (fun r => key_proper (sort_key r)) (x :: l) ->
  filter (fun r => key_eqb (sort_key r) k) (insert_desc x l) =
  filter (fun r => key_eqb (sort_key r) k) (x :: l).
Proof.
  induction l as [|y ys IH]; intros Hp; simpl; [reflexivity|].
  inversion Hp as [|? ? Hx Hyys]; inversion Hyys as [|? ? Hy Hys]; subst.
  destruct (key_lt (sort_key x) (sort_key y)) eqn:E; [|reflexivity].
  simpl; rewrite IH by (constructor; assumption); simpl.
  destruct (key_eqb (sort_key x) k) eqn:Ex, (key_eqb (sort_key y) k) eqn:Ey;
    try reflexivity.
  assert (key_eqb (sort_key y) k = false)
    by (apply (key_lt_not_eq (sort_key x)); eauto using key_eqb_proper).
  congruence.
Qed.

(** C2: on eligible results the ranking sort returns a permutation of its
    input that is sorted by descending [(txs, liq)] (Python tuple order, all
    pairs), keeps records with equal keys in their input order (stable), and
    orders A(tx=50, liq=100), B(tx=50, liq=200), C(tx=10, liq=500) as
    [B, A, C]; [scan_geckoterminal] reports its first ten, in that order. *)
Theorem scan_sort_desc_stable (rs : list (metrics * pool_text))
  (Helig : Forall (fun r => looks_like_memecoin (fst r) = Ok true) rs) :
  Permutation rs (sort_desc rs) /\
  StronglySorted (fun a b => key_lt (sort_key a) (sort_key b) = false)
    (sort_desc rs) /\
  (forall k, filter (fun r => key_eqb (sort_key r) k) (sort_desc rs) =
             filter (fun r => key_eqb (sort_key r) k) rs) /\
  (forall fa fb fc aa ab ac ta tb tc,
     let A := (mkm fa (flt_of_Z 100) (PInt 50) aa, ta) in
     let B := (mkm fb (flt_of_Z 200) (PInt 50) ab, tb) in
     let C := (mkm fc (flt_of_Z 500) (PInt 10) ac, tc) in
     sort_desc [A; B; C] = [B; A; C]).
Proof.
  assert (Hp : Forall (fun r => key_proper (sort_key r)) rs).
  { rewrite Forall_forall in Helig |- *; intros r Hr.
    apply eligible_key_proper, Helig, Hr. }
  split; [apply sort_desc_perm|].
  split; [apply sort_desc_sorted, Hp|].
  split.
  - intros k; clear Helig; induction rs as [|x r IH]; simpl; [reflexivity|].
    inversion Hp; subst.
    rewrite insert_desc_filter.
    + simpl; rewrite IH by assumption; reflexivity.
    + constructor; [assumption|].
      apply (Permutation_Forall (sort_desc_perm r)); assumption.
  - intros; reflexivity.
Qed.

(** ** Scan results *)

Lemma collect_eligible_count (items : list pyval) (rs : list (metrics * pool_text)) :
  collect_eligible items = Ok rs -> List.length rs = eligible_count items.
Proof.
  revert rs; induction items as [|i r IH]; intros rs H; simpl in *.
  - injection H as <-; reflexivity.
  - destruct (summarize_pool i) as [[t m]|e]; simpl in *; [|discriminate].
    destruct (looks_like_memecoin m) as [[|]|e]; simpl in *; try discriminate;
      destruct (collect_eligible r) as [rs'|e]; simpl in *; try discriminate;
      injection H as <-; simpl; auto.
Qed.

Lemma firstn_map_length {A B : Type} (f : A -> B) (n : nat) (l : list A) :
  List.length (firstn n (map f l)) = Nat.min n (List.length l).
Proof. rewrite length_firstn, length_map; reflexivity. Qed.

(** C3: when the scan returns (no exception), with [n] eligible records it
    returns [min n 10] reports if [n >= 1] and the single placeholder if
    [n = 0]; it never returns an empty sequence. *)
Theorem scan_result_count (data : pyval) (pools : list pyval) (picks : list line)
  (Hpools : (pv <- py_get data "data" (PList []) ;; py_iter pv) = Ok pools)
  (Hok : scan_geckoterminal data = Ok picks) :
  (eligible_count pools = O -> picks = [Msg NO_CANDIDATES]) /\
  ((1 <= eligible_count pools)%nat ->
     List.length picks = Nat.min (eligible_count pools) 10 /\
     Forall (fun l => exists t, l = Report t) picks) /\
  picks <> [].
Proof.
  unfold scan_geckoterminal in Hok.
  destruct (py_get data "data" (PList [])) as [pv|e]; cbn [bind] in Hpools, Hok;
    [|discriminate].
  rewrite Hpools in Hok; cbn [bind] in Hok.
  destruct (collect_eligible pools) as [rs|e] eqn:Hc; cbn [bind] in Hok;
    [|discriminate].
  apply collect_eligible_count in Hc.
  pose proof (Permutation_length (sort_desc_perm rs)) as Hlen.
  pose proof (firstn_map_length (fun r : metrics * pool_text => Report (snd r))
                RESULT_CAP (sort_desc rs)) as Hf.
  assert (Hrep : Forall (fun l => exists t, l = Report t)
            (firstn RESULT_CAP (map (fun r => Report (snd r)) (sort_desc rs)))).
  { apply Forall_forall; intros l Hl.
    assert (Hm : In l (map (fun r : metrics * pool_text => Report (snd r)) (sort_desc rs)))
      by (rewrite <- (firstn_skipn RESULT_CAP); apply in_or_app; left; exact Hl).
    apply in_map_iff in Hm.
    destruct Hm as [r [<- _]]; eauto. }
  destruct (firstn RESULT_CAP (map (fun r => Report (snd r)) (sort_desc rs)))
    as [|l0 ls] eqn:E; injection Hok as <-.
  - cbn [List.length] in Hf; unfold RESULT_CAP in Hf.
    split; [intros _; reflexivity|]; split; [|discriminate].
    intros H1; exfalso; lia.
  - cbn [List.length] in Hf; unfold RESULT_CAP in Hf.
    split; [intros H0; exfalso; lia|].
    split; [|discriminate].
    intros _; split; [cbn [List.length]; lia | exact Hrep].
Qed.

(** ** Per-record extraction on the scan path *)

Lemma py_get_dict (d : list (string * pyval)) (k : string) :
  py_get (PDict d) k PNone = Ok (dict_get d k).
Proof. reflexivity. Qed.




(** C9 (amended): an envelope without a [data] field, or with an empty list
    there, gives the single placeholder; a [data] field that [for] cannot
    iterate (null, a number, a bool) makes the scan raise that error, and a
    non-dict envelope raises [AttributeError]. *)
Theorem scan_missing_data_field (d : list (string * pyval)) :
  (assoc "data" d = None -> scan_geckoterminal (PDict d) = Ok [Msg NO_CANDIDATES]) /\
  (assoc "data" d = Some (PList []) ->
     scan_geckoterminal (PDict d) = Ok [Msg NO_CANDIDATES]) /\
  (forall v e, assoc "data" d = Some v -> py_iter v = Raise e ->
     scan_geckoterminal (PDict d) = Raise e) /\
  (forall v, (forall d', v <> PDict d') -> scan_geckoterminal v = Raise AttributeError).
Proof.
  unfold scan_geckoterminal; cbn [py_get bind].
  repeat split.
  - intros H; rewrite H; reflexivity.
  - intros H; rewrite H; reflexivity.
  - intros v e H Hi; rewrite H; cbn [bind]; rewrite Hi; reflexivity.
  - intros v Hv; destruct v; try reflexivity.
    exfalso; apply (Hv d0); reflexivity.
Qed.

(** ** The search path *)




(** ** Extra: the [search] command's argument parsing *)

Lemma skip_ws_spec (l : ustr) :
  exists ws, l = ws ++ skip_ws l /\ Forall (fun c => is_space c = true) ws /\
    (forall c r, skip_ws l = c :: r -> is_space c = false).
Proof.
  induction l as [|c r [ws [Hl [Hws Hh]]]]; simpl.
  - exists []; repeat split; [constructor | discriminate].
  - destruct (is_space c) eqn:Ec.
    + exists (c :: ws); simpl; rewrite <- Hl; repeat split; auto.
    + exists []; simpl; repeat split; [constructor|].
      intros c' r' H; injection H as -> ->; exact Ec.
Qed.

Lemma take_word_spec (l : ustr) :
  l = fst (take_word l) ++ snd (take_word l) /\
  Forall (fun c => is_space c = false) (fst (take_word l)) /\
  (forall c r, snd (take_word l) = c :: r -> is_space c = true).
Proof.
  induction l as [|c r [Hl [Hw Hh]]]; simpl.
  - repeat split; [constructor | discriminate].
  - destruct (is_space c) eqn:Ec; simpl.
    + repeat split; [constructor|]. intros c' r' H; injection H as -> ->; exact Ec.
    + destruct (take_word r) as [w rest]; simpl in *.
      rewrite <- Hl; repeat split; auto.
Qed.

Lemma skip_ws_app (ws l : ustr) :
  Forall (fun c => is_space c = true) ws ->
  (forall c r, l = c :: r -> is_space c = false) -> skip_ws (ws ++ l) = l.
Proof.
  intros Hws Hl; induction Hws as [|c ws Hc _ IH]; simpl.
  - destruct l as [|c r]; simpl; [reflexivity|]. rewrite (Hl c r eq_refl); reflexivity.
  - rewrite Hc; exact IH.
Qed.

Lemma take_word_app (w l : ustr) :
  Forall (fun c => is_space c = false) w ->
  (forall c r, l = c :: r -> is_space c = true) -> take_word (w ++ l) = (w, l).
Proof.
  intros Hw Hl; induction Hw as [|c w Hc _ IH]; simpl.
  - destruct l as [|c r]; simpl; [reflexivity|]. rewrite (Hl c r eq_refl); reflexivity.
  - rewrite Hc, IH; reflexivity.
Qed.

Lemma forall_space_skip (ws : ustr) :
  Forall (fun c => is_space c = true) ws -> skip_ws ws = [].
Proof.
  intros H; rewrite <- (app_nil_r ws); apply skip_ws_app; [exact H | discriminate].
Qed.

(** Extra: the [search] handler answers with the usage message, and fetches
    nothing, exactly when the text has at most one word (no text at all
    included). *)
Theorem search_usage_iff (fetch_search : ustr -> result pyval) :
  search_handler None fetch_search = [Usage] /\
  forall text,
    search_handler (Some text) fetch_search = [Usage] <->
    exists ws1 w ws2, text = ws1 ++ w ++ ws2 /\
      Forall (fun c => is_space c = true) ws1 /\
      Forall (fun c => is_space c = false) w /\
      Forall (fun c => is_space c = true) ws2.
Proof.
  split; [reflexivity|]; intros text.
  unfold search_handler; set (l := text); clearbody l.
  split.
  - destruct (skip_ws_spec l) as [ws1 [Hl [Hws _]]].
    unfold split_max1.
    destruct (skip_ws l) as [|c r] eqn:E.
    + intros _; exists ws1, [], []; rewrite Hl; simpl; auto.
    + destruct (take_word_spec (c :: r)) as [Ht [Hw _]].
      destruct (take_word (c :: r)) as [w rest]; simpl in Ht, Hw.
      destruct (skip_ws_spec rest) as [ws2 [Hr [Hws2 _]]].
      destruct (skip_ws rest) as [|c2 r2] eqn:E2; [|discriminate].
      intros _; exists ws1, w, ws2.
      rewrite Hl, Ht, Hr, app_nil_r; auto.
  - intros [ws1 [w [ws2 [Hl [H1 [Hw H2]]]]]]; rewrite Hl; unfold split_max1.
    destruct w as [|c w'].
    + simpl; rewrite forall_space_skip by (apply Forall_app; auto); reflexivity.
    + rewrite skip_ws_app with (l := (c :: w') ++ ws2).
      2: exact H1.
      2: { intros c0 r0 H; injection H as <- _; inversion Hw; assumption. }
      assert (Ht : take_word ((c :: w') ++ ws2) = (c :: w', ws2)).
      { apply take_word_app; [exact Hw|]. intros c0 r0 ->; inversion H2; assumption. }
      simpl in Ht |- *; rewrite Ht.
      rewrite forall_space_skip by exact H2; reflexivity.
Qed.

(** Extra: otherwise the text is [ws1 ++ cmd ++ ws2 ++ term] (whitespace, a
    word, whitespace, then the term from its first non-space character
    up to the end, trailing whitespace kept); the handler announces that term
    and answers with the search reply of its fetch, or the error reply of a
    failed fetch. *)
Theorem search_term_parse (text : ustr) (fetch_search : ustr -> result pyval)
  (Hterm : search_handler (Some text) fetch_search <> [Usage]) :
  exists ws1 cmd ws2 c rest,
    text = ws1 ++ cmd ++ ws2 ++ c :: rest /\
    Forall (fun c => is_space c = true) ws1 /\
    cmd <> [] /\ Forall (fun c => is_space c = false) cmd /\
    ws2 <> [] /\ Forall (fun c => is_space c = true) ws2 /\
    is_space c = false /\
    search_handler (Some text) fetch_search =
      [Searching (c :: rest);
       Answer (match fetch_search (c :: rest) with
               | Ok js => search_reply js
               | Raise e => RError e
               end)].
Proof.
  revert Hterm; unfold search_handler; set (l := text); clearbody l.
  destruct (skip_ws_spec l) as [ws1 [Hl [Hws Hh]]].
  unfold split_max1.
  destruct (skip_ws l) as [|c r] eqn:E; [intros H; exfalso; apply H; reflexivity|].
  pose proof (Hh c r eq_refl) as Hc.
  destruct (take_word_spec (c :: r)) as [Ht [Hw Hsp]].
  assert (Hne : fst (take_word (c :: r)) <> []).
  { simpl; rewrite Hc; destruct (take_word r); discriminate. }
  destruct (take_word (c :: r)) as [w rest]; simpl in Ht, Hw, Hsp, Hne.
  destruct (skip_ws_spec rest) as [ws2 [Hr [Hws2 Hh2]]].
  destruct (skip_ws rest) as [|c2 r2] eqn:E2; [intros H; exfalso; apply H; reflexivity|].
  intros _.
  exists ws1, w, ws2, c2, r2.
  repeat split; auto.
  - rewrite Hl, Ht, Hr; reflexivity.
  - intros H0; subst ws2; simpl in Hr; subst rest.
    pose proof (Hsp c2 r2 eq_refl); pose proof (Hh2 c2 r2 eq_refl); congruence.
  - exact (Hh2 c2 r2 eq_refl).
Qed.

(** ** Extra: the eligibility filter *)

Lemma Qge_match (p q : Q) :
  (match (p ?= q)%Q with Gt | Eq => true | Lt => false end) = true <-> (q <= p)%Q.
Proof.
  destruct (Qcompare_spec p q) as [H|H|H]; split; intros;
    try discriminate; try reflexivity; lra.
Qed.

Lemma flt_ge_trans (a b c : flt) :
  flt_ge a b = true -> flt_ge b c = true -> flt_ge a c = true.
Proof.
  unfold flt_ge; destruct a, b, c; simpl; intros H1 H2;
    try discriminate; try reflexivity.
  rewrite Qge_match in *; lra.
Qed.

Lemma flt_le_ge (a b : flt) : flt_le a b = flt_ge b a.
Proof.
  unfold flt_le, flt_ge; destruct a, b; simpl; try reflexivity.
  rewrite <- (Qcompare_antisym q0 q); destruct (q0 ?= q)%Q; reflexivity.
Qed.

(** Extra: a NaN liquidity, FDV or age (a ["nan"] string in the record)
    never passes the filter. *)
Theorem looks_like_memecoin_nan_rejected (m : metrics)
  (Hnan : m_liq m = NaN \/ m_fdv m = NaN \/ m_age m = NaN) :
  looks_like_memecoin m <> Ok true.
Proof.
  destruct m as [fdv liq txs age]; unfold looks_like_memecoin; simpl in *.
  destruct (flt_ge liq (flt_of_Z MIN_LIQ_USD)) eqn:E1; [|discriminate].
  destruct (py_ge_int txs MIN_1H_TXNS) as [[|]|]; cbn [bind]; try discriminate.
  destruct (flt_le fdv (flt_of_Z MAX_FDV_USD)) eqn:E2; [|discriminate].
  destruct (flt_le age (flt_of_Z MAX_POOL_AGE_HOURS)) eqn:E3; [|discriminate].
  destruct Hnan as [ -> | [ -> | -> ] ]; simpl in *; discriminate.
Qed.

(** Extra: the short-circuit of [and]: a [txs] that is not a number (a
    string, a list, a dict or null) raises [TypeError] exactly when the
    liquidity test passed; below the liquidity floor the record is simply
    rejected. *)
Theorem looks_like_memecoin_txs_not_number (m : metrics)
  (Htxs : is_number (m_txs m) = false) :
  looks_like_memecoin m =
    if flt_ge (m_liq m) (flt_of_Z MIN_LIQ_USD) then Raise TypeError else Ok false.
Proof.
  destruct m as [fdv liq txs age]; unfold looks_like_memecoin; simpl in *.
  destruct (flt_ge liq (flt_of_Z MIN_LIQ_USD)); [|reflexivity].
  destruct txs; simpl in Htxs; try discriminate; reflexivity.
Qed.

(** Extra: a record that passes has a numeric [txs] of at least
    [MIN_1H_TXNS]: the sort key's first component is a number. *)
Theorem eligible_txs_numeric (m : metrics)
  (Helig : looks_like_memecoin m = Ok true) :
  is_number (m_txs m) = true /\
  flt_ge (num_of (m_txs m)) (flt_of_Z MIN_1H_TXNS) = true.
Proof.
  destruct m as [fdv liq txs age]; unfold looks_like_memecoin in Helig; simpl in *.
  destruct (flt_ge liq (flt_of_Z MIN_LIQ_USD)); [|discriminate].
  destruct txs; simpl in Helig; try discriminate; simpl; split; try reflexivity.
  - destruct b; simpl in Helig; discriminate.
  - destruct (z >=? MIN_1H_TXNS) eqn:Ez; simpl in Helig; [|discriminate].
    unfold flt_ge, flt_of_Z; simpl; apply Qge_match.
    rewrite <- Zle_Qle; apply Z.geb_le in Ez; lia.
  - destruct (flt_ge f (flt_of_Z MIN_1H_TXNS)); simpl in Helig; congruence.
Qed.

(** Extra: eligibility is monotone: more liquidity, a lower FDV or a
    younger pool keep an eligible record eligible. *)
Theorem looks_like_memecoin_monotone (m : metrics) (liq' fdv' age' : flt)
  (Helig : looks_like_memecoin m = Ok true)
  (Hliq : flt_ge liq' (m_liq m) = true)
  (Hfdv : flt_le fdv' (m_fdv m) = true)
  (Hage : flt_le age' (m_age m) = true) :
  looks_like_memecoin (mkm fdv' liq' (m_txs m) age') = Ok true.
Proof.
  destruct m as [fdv liq txs age]; unfold looks_like_memecoin in *; simpl in *.
  destruct (flt_ge liq (flt_of_Z MIN_LIQ_USD)) eqn:E1; [|discriminate].
  rewrite (flt_ge_trans liq' liq _ Hliq E1).
  destruct (py_ge_int txs MIN_1H_TXNS) as [[|]|]; cbn [bind] in *; try discriminate.
  injection Helig as Helig; apply andb_prop in Helig as [H2 H3].
  rewrite flt_le_ge in H2, H3, Hfdv, Hage; rewrite !flt_le_ge.
  rewrite (flt_ge_trans _ fdv fdv' H2 Hfdv), (flt_ge_trans _ age age' H3 Hage).
  reflexivity.
Qed.

(** ** Extra: [usd] and [summarize_pool] *)

(** Extra: an int amount converts exactly, except one too large for a float,
    which [float(x)] rejects with [OverflowError] and [usd] turns into 0.0. *)
Theorem usd_int (z : Z) :
  usd (PInt z) = if Z.abs z >=? 2 ^ 1024 - 2 ^ 970 then Fin 0 else flt_of_Z z.
Proof.
  unfold usd, py_float, int_to_float; simpl.
  destruct (Z.eqb_spec z 0) as [->|Hz]; [reflexivity|].
  simpl; destruct (Z.abs z >=? _); reflexivity.
Qed.



(** Extra: hourly counts given as non-empty strings are concatenated, not
    added; such a record raises [TypeError] in the filter once its
    liquidity passes. *)
Theorem summarize_string_counts (p : pyval) (a : list (string * pyval)) (s1 s2 : string)
  (Hattrs : py_get p "attributes" (PDict []) = Ok (PDict a))
  (Hb : dict_get a "buys_1h" = PStr s1) (Hb1 : s1 <> EmptyString)
  (Hs : dict_get a "sells_1h" = PStr s2) (Hs1 : s2 <> EmptyString) :
  exists t m, summarize_pool p = Ok (t, m) /\ m_txs m = PStr (s1 ++ s2) /\
    looks_like_memecoin m =
      if flt_ge (usd (dict_get a "reserve_in_usd")) (flt_of_Z MIN_LIQ_USD)
      then Raise TypeError else Ok false.
Proof.
  unfold summarize_pool; rewrite Hattrs; cbn [bind]; rewrite !py_get_dict; cbn [bind].
  rewrite Hb, Hs.
  unfold py_or; simpl truthy.
  apply String.eqb_neq in Hb1, Hs1; rewrite Hb1, Hs1; simpl.
  eexists; eexists; split; [reflexivity|]; split; [reflexivity|].
  unfold looks_like_memecoin; simpl.
  destruct (flt_ge _ _); reflexivity.
Qed.

(** ** Extra: [hours_since] orders instants *)

Lemma hours_since_parsed (s : string) (d : pdatetime) :
  isoparse s = Some d -> hours_since (PStr s) = Fin ((now - utc_seconds d) / 3600)%Q.
Proof.
  intros H; unfold hours_since, aware_sub, utc_seconds; rewrite H.
  destruct d as [l [o|]]; reflexivity.
Qed.

(** Extra: two parsed timestamps for the same instant (whatever their
    offsets) get equal ages, and a later instant never gets a larger age.
    Both survive binary64 rounding: [datetime] subtraction is exact, and
    rounding [total_seconds()] and the division by [3600.0] is monotone. *)
Theorem hours_since_order (s s' : string) (d d' : pdatetime)
  (Hs : isoparse s = Some d) (Hs' : isoparse s' = Some d') :
  ((utc_seconds d == utc_seconds d')%Q ->
     flt_eqb (hours_since (PStr s)) (hours_since (PStr s')) = true) /\
  ((utc_seconds d <= utc_seconds d')%Q ->
     flt_le (hours_since (PStr s')) (hours_since (PStr s)) = true).
Proof.
  rewrite (hours_since_parsed s d Hs), (hours_since_parsed s' d' Hs').
  unfold flt_eqb, flt_le, flt_cmp; split; intros H.
  - assert (E : ((now - utc_seconds d) / 3600 == (now - utc_seconds d') / 3600)%Q).
    { unfold Qdiv; change (/ 3600)%Q with (1 # 3600)%Q; lra. }
    rewrite (proj1 (Qeq_alt _ _) E); reflexivity.
  - assert (E : ((now - utc_seconds d') / 3600 <= (now - utc_seconds d) / 3600)%Q).
    { unfold Qdiv; change (/ 3600)%Q with (1 # 3600)%Q; lra. }
    pose proof (proj1 (Qle_alt _ _) E) as E'.
    destruct ((now - utc_seconds d') / 3600 ?= (now - utc_seconds d) / 3600)%Q eqn:C;
      try reflexivity; contradiction.
Qed.

(** ** Extra: the scan loop and the ranking *)

Lemma collect_eligible_sound (items : list pyval) (rs : list (metrics * pool_text)) :
  collect_eligible items = Ok rs ->
  Forall (fun r => looks_like_memecoin (fst r) = Ok true /\
            exists it, In it items /\ summarize_pool it = Ok (snd r, fst r)) rs.
Proof.
  revert rs; induction items as [|i r IH]; intros rs H; simpl in H.
  - injection H as <-; constructor.
  - destruct (summarize_pool i) as [[t m]|e] eqn:Hs; cbn [bind fst snd] in H;
      [|discriminate].
    destruct (looks_like_memecoin m) as [[|]|e] eqn:Hl; cbn [bind] in H;
      [| |discriminate];
      (destruct (collect_eligible r) as [rs'|e] eqn:Hr; cbn [bind] in H;
       [|discriminate]);
      injection H as <-;
      assert (Hrest : Forall (fun r0 => looks_like_memecoin (fst r0) = Ok true /\
                exists it, In it (i :: r) /\ summarize_pool it = Ok (snd r0, fst r0)) rs')
        by (eapply Forall_impl; [|exact (IH rs' eq_refl)];
            intros x [Hx1 [it [Hin Hit]]]; split; [exact Hx1|];
            exists it; split; [right; exact Hin | exact Hit]).
    + constructor; [|exact Hrest].
      split; [exact Hl|]. exists i; split; [left; reflexivity | exact Hs].
    + exact Hrest.
Qed.

Lemma StronglySorted_app_rel {A : Type} (R : A -> A -> Prop) (l1 l2 : list A) (x y : A) :
  StronglySorted R (l1 ++ l2) -> In x l1 -> In y l2 -> R x y.
Proof.
  induction l1 as [|a l1 IH]; simpl; intros H Hx Hy; [contradiction|].
  inversion H as [|? ? Hs Hf]; subst.
  destruct Hx as [<-|Hx].
  - rewrite Forall_forall in Hf; apply Hf, in_or_app; right; exact Hy.
  - apply IH; assumption.
Qed.

(** Extra: every report the scan returns is the summary of one of the input
    pools that passed the filter; otherwise the scan returns the single
    placeholder: it never reports a rejected or invented pool. *)
Theorem scan_reports_eligible (data : pyval) (pools : list pyval) (picks : list line)
  (Hpools : (pv <- py_get data "data" (PList []) ;; py_iter pv) = Ok pools)
  (Hok : scan_geckoterminal data = Ok picks) :
  picks = [Msg NO_CANDIDATES] \/
  (picks <> [] /\
   Forall (fun l => exists item t m, l = Report t /\ In item pools /\
             summarize_pool item = Ok (t, m) /\ looks_like_memecoin m = Ok true) picks).
Proof.
  unfold scan_geckoterminal in Hok.
  destruct (py_get data "data" (PList [])) as [pv|e]; cbn [bind] in Hpools, Hok;
    [|discriminate].
  rewrite Hpools in Hok; cbn [bind] in Hok.
  destruct (collect_eligible pools) as [rs|e] eqn:Hc; cbn [bind] in Hok; [|discriminate].
  apply collect_eligible_sound in Hc.
  destruct (firstn RESULT_CAP (map (fun r => Report (snd r)) (sort_desc rs)))
    as [|l0 ls] eqn:E; injection Hok as <-; [left; reflexivity|right].
  split; [discriminate|].
  rewrite <- E; apply Forall_forall; intros l Hl.
  assert (Hm : In l (map (fun r : metrics * pool_text => Report (snd r)) (sort_desc rs)))
    by (rewrite <- (firstn_skipn RESULT_CAP); apply in_or_app; left; exact Hl).
  apply in_map_iff in Hm; destruct Hm as [r [<- Hr]].
  apply (Permutation_in _ (Permutation_sym (sort_desc_perm rs))) in Hr.
  rewrite Forall_forall in Hc; destruct (Hc r Hr) as [Hl1 [it [Hin Hit]]].
  exists it, (snd r), (fst r); auto.
Qed.

(** Extra: with at least one eligible record the scan returns the first ten
    of the ranked results, and no record left out ranks above (by the
    [(txs, liq)] tuple order) a record that is reported. *)
Theorem scan_top_ten (data : pyval) (pools : list pyval) (rs : list (metrics * pool_text))
  (Hpools : (pv <- py_get data "data" (PList []) ;; py_iter pv) = Ok pools)
  (Hc : collect_eligible pools = Ok rs) (Hne : rs <> []) :
  scan_geckoterminal data =
    Ok (map (fun r => Report (snd r)) (firstn RESULT_CAP (sort_desc rs))) /\
  (forall x y, In x (firstn RESULT_CAP (sort_desc rs)) ->
     In y (skipn RESULT_CAP (sort_desc rs)) ->
     key_lt (sort_key x) (sort_key y) = false).
Proof.
  split.
  - unfold scan_geckoterminal.
    destruct (py_get data "data" (PList [])) as [pv|e]; cbn [bind] in Hpools |- *;
      [|discriminate].
    rewrite Hpools; cbn [bind]; rewrite Hc; cbn [bind].
    rewrite <- firstn_map.
    destruct (firstn RESULT_CAP (map (fun r => Report (snd r)) (sort_desc rs))) eqn:E;
      [|reflexivity].
    exfalso; apply Hne.
    pose proof (Permutation_length (sort_desc_perm rs)) as Hlen.
    destruct (sort_desc rs); [destruct rs; [reflexivity|discriminate]|discriminate].
  - intros x y Hx Hy.
    apply collect_eligible_sound in Hc.
    assert (Hp : Forall (fun r => key_proper (sort_key r)) rs).
    { rewrite Forall_forall in Hc |- *; intros r Hr.
      apply eligible_key_proper, (Hc r Hr). }
    pose proof (sort_desc_sorted rs Hp) as Hs.
    rewrite <- (firstn_skipn RESULT_CAP (sort_desc rs)) in Hs.
    exact (StronglySorted_app_rel _ _ _ _ _ Hs Hx Hy).
Qed.

(** Extra: the ranking sort leaves a list already in descending order as it
    is, so ranking twice gives the ranking once. *)
Theorem sort_desc_sorted_fixed :
  (forall l, Sorted R_desc l -> sort_desc l = l) /\
  (forall rs, Forall (fun r => looks_like_memecoin (fst r) = Ok true) rs ->
     sort_desc (sort_desc rs) = sort_desc rs).
Proof.
  assert (Hfix : forall l, Sorted R_desc l -> sort_desc l = l).
  { intros l Hs; induction Hs as [|a l Hs IH Hd]; simpl; [reflexivity|].
    rewrite IH; inversion Hd as [|b l' Hab]; subst; simpl; [reflexivity|].
    unfold R_desc in Hab; rewrite Hab; reflexivity. }
  split; [exact Hfix|].
  intros rs Helig; apply Hfix, StronglySorted_Sorted, sort_desc_sorted.
  rewrite Forall_forall in Helig |- *; intros r Hr.
  apply eligible_key_proper, (Helig r Hr).
Qed.

Lemma collect_eligible_In_raise (items : list pyval) (p : pyval) :
  In p items ->
  (exists e, summarize_pool p = Raise e) \/
  (exists t m e, summarize_pool p = Ok (t, m) /\ looks_like_memecoin m = Raise e) ->
  exists e, collect_eligible items = Raise e.
Proof.
  induction items as [|a r IH]; simpl; intros Hin Hbad; [contradiction|].
  destruct Hin as [<-|Hin].
  - destruct Hbad as [[e He]|[t [m [e [Hs Hl]]]]].
    + rewrite He; cbn [bind]; eauto.
    + rewrite Hs; cbn [bind snd]; rewrite Hl; cbn [bind]; eauto.
  - destruct (IH Hin Hbad) as [e He].
    destruct (summarize_pool a) as [[t m]|e']; cbn [bind snd]; [|eauto].
    destruct (looks_like_memecoin m) as [b|e']; cbn [bind]; [|eauto].
    rewrite He; cbn [bind]; eauto.
Qed.

(** Extra: one record anywhere in [data] that the summarizer or the filter
    raises on aborts the whole scan: the command answers with the error
    reply, not with the other pools. *)
Theorem scan_one_bad_record (d : list (string * pyval)) (pools : list pyval) (p : pyval)
  (Hdata : assoc "data" d = Some (PList pools)) (Hin : In p pools)
  (Hbad : (exists e, summarize_pool p = Raise e) \/
          (exists t m e, summarize_pool p = Ok (t, m) /\ looks_like_memecoin m = Raise e)) :
  exists e, scan_geckoterminal (PDict d) = Raise e /\ scan_reply (PDict d) = RError e.
Proof.
  destruct (collect_eligible_In_raise pools p Hin Hbad) as [e He].
  exists e; unfold scan_reply, scan_geckoterminal; cbn [py_get bind].
  rewrite Hdata; cbn [py_iter bind]; rewrite He; cbn [bind]; split; reflexivity.
Qed.

Lemma collect_eligible_skip (l1 l2 : list pyval) (p : pyval) (t : pool_text) (m : metrics) :
  summarize_pool p = Ok (t, m) -> looks_like_memecoin m = Ok false ->
  collect_eligible (l1 ++ p :: l2) = collect_eligible (l1 ++ l2).
Proof.
  intros Hs Hl; induction l1 as [|a l1 IH]; simpl.
  - rewrite Hs; cbn [bind snd fst]; rewrite Hl; cbn [bind].
    destruct (collect_eligible l2); reflexivity.
  - rewrite IH; reflexivity.
Qed.

(** Extra: a record that is summarized and rejected by the filter has no
    effect at all: the scan with it equals the scan without it. *)
Theorem scan_ignores_rejected (d d' : list (string * pyval)) (l1 l2 : list pyval)
  (p : pyval) (t : pool_text) (m : metrics)
  (Hs : summarize_pool p = Ok (t, m)) (Hl : looks_like_memecoin m = Ok false)
  (Hd : assoc "data" d = Some (PList (l1 ++ p :: l2)))
  (Hd' : assoc "data" d' = Some (PList (l1 ++ l2))) :
  scan_geckoterminal (PDict d) = scan_geckoterminal (PDict d').
Proof.
  unfold scan_geckoterminal; cbn [py_get bind]; rewrite Hd, Hd'; cbn [py_iter bind].
  rewrite (collect_eligible_skip l1 l2 p t m Hs Hl); reflexivity.
Qed.

(** ** Extra: the search path *)

(** Extra: a search reply that is not an error is either the single
    no-results placeholder or between one and ten result lines. *)
Theorem search_reply_size (js : pyval) (ls : list line)
  (Htext : search_reply js = RText ls) :
  ls = [Msg NO_RESULTS] \/
  ((1 <= List.length ls <= 10)%nat /\ Forall (fun l => exists t, l = SearchLine t) ls).
Proof.
  revert Htext; unfold search_reply.
  destruct (pv <- py_get js "pairs" (PList []) ;; pairs <- py_iter pv ;;
            search_collect pairs) as [[|x xs]|e]; intros H; try discriminate H;
    [left; congruence|right].
  assert (E : ls = map SearchLine (firstn RESULT_CAP (x :: xs))) by congruence.
  subst ls; split.
  - rewrite length_map, length_firstn; cbn [List.length]; unfold RESULT_CAP.
    destruct (Nat.min_spec 10 (S (List.length xs))) as [[H1 ->]|[H1 ->]]; lia.
  - apply Forall_forall; intros l Hl; apply in_map_iff in Hl.
    destruct Hl as [t [<- _]]; eauto.
Qed.

(** Extra: an on-chain pair with both symbols but no [liquidity], [txns] or
    [url] field is listed with liquidity 0.0, zero transactions and no URL,
    at the [float] of its [priceUsd]. *)
Theorem search_pair_defaults (d bd qd : list (string * pyval)) (bs qs pv : pyval) (f : flt)
  (Hchain : pair_on_chain (PDict d) = true)
  (Hbt : assoc "baseToken" d = Some (PDict bd)) (Hbs : assoc "symbol" bd = Some bs)
  (Hqt : assoc "quoteToken" d = Some (PDict qd)) (Hqs : assoc "symbol" qd = Some qs)
  (Hurl : assoc "url" d = None) (Hliq : assoc "liquidity" d = None)
  (Htx : assoc "txns" d = None)
  (Hpv : assoc "priceUsd" d = Some pv) (Hf : py_float pv = Ok f) :
  search_pair (PDict d) = Ok (Some (mkst bs qs f (Fin 0) (PInt 0) PNone)).
Proof.
  unfold search_pair, pair_on_chain, dict_get in *.
  cbn [py_get py_index bind]; rewrite Hchain; cbn [negb].
  rewrite Hbt; cbn [py_index bind]; rewrite Hbs; cbn [bind].
  rewrite Hqt; cbn [py_index bind]; rewrite Hqs; cbn [bind].
  rewrite Hurl, Hliq, Htx, Hpv; cbn [bind py_get assoc].
  rewrite Hf; reflexivity.
Qed.

Lemma bind_raise {A B : Type} (r : result A) (f : A -> result B) :
  (forall a, exists e, f a = Raise e) -> exists e, bind r f = Raise e.
Proof. destruct r; simpl; eauto. Qed.

Lemma search_pair_no_price (d : list (string * pyval)) :
  pair_on_chain (PDict d) = true -> assoc "priceUsd" d = None ->
  exists e, search_pair (PDict d) = Raise e.
Proof.
  intros Hc Hp; unfold search_pair, pair_on_chain, dict_get in *.
  cbn [py_get bind]; rewrite Hc; cbn [negb].
  rewrite Hp; cbn [bind py_float].
  repeat (cbv zeta; apply bind_raise; intros ?).
  eauto.
Qed.

Lemma search_collect_In_raise (ps : list pyval) (p : pyval) :
  In p ps -> (exists e, search_pair p = Raise e) -> exists e, search_collect ps = Raise e.
Proof.
  induction ps as [|a r IH]; simpl; intros Hin Hbad; [contradiction|].
  destruct Hin as [<-|Hin].
  - destruct Hbad as [e He]; rewrite He; cbn [bind]; eauto.
  - destruct (IH Hin Hbad) as [e He].
    destruct (search_pair a) as [o|e']; cbn [bind]; [|eauto].
    rewrite He; cbn [bind]; eauto.
Qed.

(** Extra: one on-chain pair without [priceUsd] makes the whole search
    answer with the error reply ([float(None)] raises), whatever the other
    pairs are. *)
Theorem search_missing_price_error (d dp : list (string * pyval)) (ps : list pyval)
  (Hpairs : assoc "pairs" d = Some (PList ps)) (Hin : In (PDict dp) ps)
  (Hchain : pair_on_chain (PDict dp) = true) (Hnoprice : assoc "priceUsd" dp = None) :
  exists e, search_reply (PDict d) = RError e.
Proof.
  destruct (search_collect_In_raise ps (PDict dp) Hin
              (search_pair_no_price dp Hchain Hnoprice)) as [e He].
  exists e; unfold search_reply; cbn [py_get bind]; rewrite Hpairs; cbn [py_iter bind].
  rewrite He; reflexivity.
Qed.

(** ** Per-record extraction: recovered fields and the hourly-count sum *)











End Pipeline.

(** * Witnesses and counterexamples *)

Lemma looks_like_memecoin_conjunction_witness :
  looks_like_memecoin (mkm (Fin 0) (flt_of_Z 5000) (PInt 40) (Fin 2)) = Ok true /\
  looks_like_memecoin (mkm (Fin 0) (flt_of_Z 1000) (PInt 40) (Fin 2)) = Ok false.
Proof.
  split.
  - apply (proj2 (proj1 (looks_like_memecoin_conjunction
             (mkm (Fin 0) (flt_of_Z 5000) (PInt 40) (Fin 2)) eq_refl))).
    repeat split; reflexivity.
  - apply (proj2 (proj2 (looks_like_memecoin_conjunction
             (mkm (Fin 0) (flt_of_Z 1000) (PInt 40) (Fin 2)) eq_refl))).
    intros [H _]; discriminate H.
Defined.

Lemma scan_sort_desc_stable_witness :
  sort_desc [(mkm (Fin 0) (flt_of_Z 5000) (PInt 30) (Fin 2), sample_text);
             (mkm (Fin 0) (flt_of_Z 4000) (PInt 40) (Fin 2), sample_text)] =
            [(mkm (Fin 0) (flt_of_Z 4000) (PInt 40) (Fin 2), sample_text);
             (mkm (Fin 0) (flt_of_Z 5000) (PInt 30) (Fin 2), sample_text)] /\
  StronglySorted (fun a b => key_lt (sort_key a) (sort_key b) = false)
    (sort_desc [(mkm (Fin 0) (flt_of_Z 5000) (PInt 30) (Fin 2), sample_text);
                (mkm (Fin 0) (flt_of_Z 4000) (PInt 40) (Fin 2), sample_text)]).
Proof.
  split; [reflexivity|].
  apply (proj1 (proj2 (scan_sort_desc_stable
           [(mkm (Fin 0) (flt_of_Z 5000) (PInt 30) (Fin 2), sample_text);
            (mkm (Fin 0) (flt_of_Z 4000) (PInt 40) (Fin 2), sample_text)]
           ltac:(repeat constructor)))).
Defined.

Lemma scan_result_count_witness :
  exists picks,
    scan_geckoterminal parse_decimal iso_basic NOW_2025_10_14 envelope_15 = Ok picks /\
    List.length picks = 10%nat.
Proof.
  set (picks := match scan_geckoterminal parse_decimal iso_basic NOW_2025_10_14
                        envelope_15 with Ok p => p | Raise _ => [] end).
  assert (Hok : scan_geckoterminal parse_decimal iso_basic NOW_2025_10_14 envelope_15
                = Ok picks) by (vm_compute; reflexivity).
  exists picks; split; [exact Hok|].
  destruct (scan_result_count parse_decimal iso_basic NOW_2025_10_14 envelope_15
              (repeat fresh_pool 15) picks eq_refl Hok) as [_ [H _]].
  rewrite (proj1 (H ltac:(vm_compute; lia))).
  vm_compute; reflexivity.
Defined.

Lemma usd_total_default_witness :
  usd parse_decimal (PStr "5000") = flt_of_Z 5000 /\
  usd parse_decimal (PStr "abc") = Fin 0 /\
  usd parse_decimal (PList [PInt 1]) = Fin 0.
Proof.
  split; [|split].
  - apply (proj2 (proj2 (proj2 (proj2 (usd_total_default parse_decimal (PStr "5000"))))));
      reflexivity.
  - apply (proj1 (proj2 (proj2 (proj2 (usd_total_default parse_decimal (PStr "abc")))))
             ValueError); reflexivity.
  - apply (proj1 (proj2 (proj2 (proj2 (usd_total_default parse_decimal (PList [PInt 1])))))
             TypeError); reflexivity.
Defined.

Lemma hours_since_nonnegative_counterexample :
  ~ (forall x, hours_since iso_basic NOW_2025_10_14 x = PInf \/
               exists q, hours_since iso_basic NOW_2025_10_14 x = Fin q /\ (0 <= q)%Q).
Proof.
  intros H; destruct (H (PStr future_ts)) as [E | [q [E Hq]]];
    vm_compute in E; [discriminate|].
  injection E as <-; vm_compute in Hq; apply Hq; reflexivity.
Defined.

Lemma hours_since_inf_or_elapsed_witness :
  hours_since iso_basic NOW_2025_10_14 PNone = PInf /\
  hours_since iso_basic NOW_2025_10_14 (PStr "yesterday") = PInf /\
  hours_since iso_basic NOW_2025_10_14 (PStr future_ts) = Fin (-7200 # 3600).
Proof.
  split; [|split].
  - apply (proj1 (proj2 (hours_since_inf_or_elapsed iso_basic NOW_2025_10_14 PNone))).
    intros s; discriminate.
  - apply (proj1 (proj2 (proj2 (hours_since_inf_or_elapsed iso_basic NOW_2025_10_14
             (PStr "yesterday")))) "yesterday"%string); reflexivity.
  - rewrite (proj1 (proj2 (proj2 (proj2 (hours_since_inf_or_elapsed iso_basic
               NOW_2025_10_14 (PStr future_ts))))) future_ts
               (mkdt (inject_Z 1760450400) (Some 0%Q)) eq_refl) by (vm_compute; reflexivity).
    vm_compute; reflexivity.
Defined.

Lemma hours_since_naive_as_utc_witness :
  hours_since iso_basic NOW_2025_10_14 (PStr "2025-10-14T10:00:00") =
  hours_since iso_basic NOW_2025_10_14 (PStr "2025-10-14T10:00:00Z").
Proof.
  apply (hours_since_naive_as_utc iso_basic NOW_2025_10_14
           "2025-10-14T10:00:00" "2025-10-14T10:00:00Z"
           (mkdt (inject_Z 1760436000) None)); vm_compute; reflexivity.
Defined.







Lemma scan_null_data_counterexample :
  scan_geckoterminal parse_decimal iso_basic NOW_2025_10_14
    (PDict [("data"%string, PNone)]) = Raise TypeError.
Proof. reflexivity. Defined.

Lemma scan_missing_data_field_witness :
  scan_geckoterminal parse_decimal iso_basic NOW_2025_10_14
    (PDict [("meta"%string, PDict [])]) = Ok [Msg NO_CANDIDATES] /\
  scan_geckoterminal parse_decimal iso_basic NOW_2025_10_14
    (PDict [("data"%string, PInt 3)]) = Raise TypeError.
Proof.
  split.
  - apply (proj1 (scan_missing_data_field parse_decimal iso_basic NOW_2025_10_14
             [("meta"%string, PDict [])])); reflexivity.
  - apply (proj1 (proj2 (proj2 (scan_missing_data_field parse_decimal iso_basic
             NOW_2025_10_14 [("data"%string, PInt 3)]))) (PInt 3)); reflexivity.
Defined.

(** ** Witnesses of the further properties *)

Lemma search_usage_iff_witness :
  search_handler parse_decimal None (fun _ => Raise TypeError) = [Usage] /\
  search_handler parse_decimal (Some (utext "  /search  ")) (fun _ => Raise TypeError)
    = [Usage].
Proof.
  split; [exact (proj1 (search_usage_iff parse_decimal (fun _ => Raise TypeError)))|].
  apply (proj2 (proj2 (search_usage_iff parse_decimal (fun _ => Raise TypeError))
                  (utext "  /search  "))).
  exists (utext "  "), (utext "/search"), (utext "  ").
  split; [reflexivity|]; repeat constructor.
Defined.

Lemma search_term_parse_witness :
  search_handler parse_decimal (Some (utext "/search" ++ [133] ++ utext "doge coin "))
    (fun _ => Raise TypeError) <> [Usage] /\
  (exists ws1 cmd ws2 c rest,
    utext "/search" ++ [133] ++ utext "doge coin " = ws1 ++ cmd ++ ws2 ++ c :: rest /\
    is_space c = false /\
    search_handler parse_decimal (Some (utext "/search" ++ [133] ++ utext "doge coin "))
      (fun _ => Raise TypeError) =
      [Searching (c :: rest); Answer (RError TypeError)]) /\
  search_handler parse_decimal (Some (utext "/search" ++ [133] ++ utext "doge coin "))
    (fun _ => Raise TypeError) =
    [Searching (utext "doge coin "); Answer (RError TypeError)].
Proof.
  assert (H : search_handler parse_decimal
                (Some (utext "/search" ++ [133] ++ utext "doge coin "))
                (fun _ => Raise TypeError) <> [Usage]) by discriminate.
  split; [exact H|]; split; [|vm_compute; reflexivity].
  destruct (search_term_parse parse_decimal (utext "/search" ++ [133] ++ utext "doge coin ")
              (fun _ => Raise TypeError) H)
    as [ws1 [cmd [ws2 [c [rest [E [_ [_ [_ [_ [_ [Hc Hh]]]]]]]]]]]].
  exists ws1, cmd, ws2, c, rest; split; [exact E|]; split; [exact Hc|exact Hh].
Defined.

Lemma looks_like_memecoin_nan_rejected_witness :
  looks_like_memecoin (mkm (Fin 0) NaN (PInt 40) (Fin 2)) <> Ok true /\
  looks_like_memecoin (mkm NaN (flt_of_Z 5000) (PInt 40) (Fin 2)) <> Ok true.
Proof.
  split; apply looks_like_memecoin_nan_rejected; simpl; auto.
Defined.

Lemma looks_like_memecoin_txs_not_number_witness :
  looks_like_memecoin (mkm (Fin 0) (flt_of_Z 5000) (PStr "53") (Fin 2)) = Raise TypeError /\
  looks_like_memecoin (mkm (Fin 0) (flt_of_Z 100) (PStr "53") (Fin 2)) = Ok false.
Proof.
  split; rewrite looks_like_memecoin_txs_not_number by reflexivity; reflexivity.
Defined.

Lemma eligible_txs_numeric_witness :
  looks_like_memecoin (mkm (Fin 0) (flt_of_Z 5000) (PInt 40) (Fin 2)) = Ok true /\
  is_number (PInt 40) = true /\ flt_ge (num_of (PInt 40)) (flt_of_Z MIN_1H_TXNS) = true.
Proof.
  split; [reflexivity|].
  exact (eligible_txs_numeric (mkm (Fin 0) (flt_of_Z 5000) (PInt 40) (Fin 2)) eq_refl).
Defined.

Lemma looks_like_memecoin_monotone_witness :
  looks_like_memecoin (mkm (Fin 0) (flt_of_Z 9000) (PInt 40) (Fin 1)) = Ok true.
Proof.
  apply (looks_like_memecoin_monotone (mkm (flt_of_Z 1000000) (flt_of_Z 5000) (PInt 40) (Fin 2))
           (flt_of_Z 9000) (Fin 0) (Fin 1)); reflexivity.
Defined.

Lemma usd_int_witness :
  usd parse_decimal (PInt (2 ^ 1024)) = Fin 0 /\ usd parse_decimal (PInt 7) = flt_of_Z 7.
Proof. split; rewrite usd_int; reflexivity. Defined.


Lemma summarize_string_counts_witness :
  exists t m, summarize_pool parse_decimal iso_basic NOW_2025_10_14
    (PDict [("attributes"%string, PDict [("reserve_in_usd"%string, PStr "5000");
                                          ("buys_1h"%string, PStr "5");
                                          ("sells_1h"%string, PStr "3")])]) = Ok (t, m) /\
    m_txs m = PStr "53" /\ looks_like_memecoin m = Raise TypeError.
Proof.
  destruct (summarize_string_counts parse_decimal iso_basic NOW_2025_10_14
    (PDict [("attributes"%string, PDict [("reserve_in_usd"%string, PStr "5000");
                                          ("buys_1h"%string, PStr "5");
                                          ("sells_1h"%string, PStr "3")])]) _ "5" "3"
    eq_refl eq_refl ltac:(discriminate) eq_refl ltac:(discriminate))
    as [t [m [H1 [H2 H3]]]].
  exists t, m; split; [exact H1|]; split; [exact H2|].
  rewrite H3; vm_compute; reflexivity.
Defined.

Lemma hours_since_order_witness :
  flt_eqb (hours_since iso_basic NOW_2025_10_14 (PStr "2025-10-14T10:00:00Z"))
          (hours_since iso_basic NOW_2025_10_14 (PStr "2025-10-14T12:00:00+02:00")) = true /\
  flt_le (hours_since iso_basic NOW_2025_10_14 (PStr "2025-10-14T11:00:00Z"))
         (hours_since iso_basic NOW_2025_10_14 (PStr "2025-10-14T10:00:00Z")) = true.
Proof.
  split.
  - apply (proj1 (hours_since_order iso_basic NOW_2025_10_14
             "2025-10-14T10:00:00Z" "2025-10-14T12:00:00+02:00"
             (mkdt (inject_Z 1760436000) (Some 0%Q))
             (mkdt (inject_Z 1760443200) (Some (inject_Z 7200)))
             ltac:(vm_compute; reflexivity) ltac:(vm_compute; reflexivity))).
    vm_compute; reflexivity.
  - apply (proj2 (hours_since_order iso_basic NOW_2025_10_14
             "2025-10-14T10:00:00Z" "2025-10-14T11:00:00Z"
             (mkdt (inject_Z 1760436000) (Some 0%Q))
             (mkdt (inject_Z 1760439600) (Some 0%Q))
             ltac:(vm_compute; reflexivity) ltac:(vm_compute; reflexivity))).
    vm_compute; discriminate.
Defined.

Lemma scan_reports_eligible_witness :
  exists picks,
    scan_geckoterminal parse_decimal iso_basic NOW_2025_10_14
      (PDict [("data"%string, PList [fresh_pool; negative_count_pool])]) = Ok picks /\
    (picks = [Msg NO_CANDIDATES] \/
     (picks <> [] /\
      Forall (fun l => exists item t m, l = Report t /\
                In item [fresh_pool; negative_count_pool] /\
                summarize_pool parse_decimal iso_basic NOW_2025_10_14 item = Ok (t, m) /\
                looks_like_memecoin m = Ok true) picks)).
Proof.
  set (picks := match scan_geckoterminal parse_decimal iso_basic NOW_2025_10_14
                  (PDict [("data"%string, PList [fresh_pool; negative_count_pool])]) with
                | Ok p => p | Raise _ => [] end).
  assert (Hok : scan_geckoterminal parse_decimal iso_basic NOW_2025_10_14
                  (PDict [("data"%string, PList [fresh_pool; negative_count_pool])])
                = Ok picks) by (vm_compute; reflexivity).
  exists picks; split; [exact Hok|].
  exact (scan_reports_eligible parse_decimal iso_basic NOW_2025_10_14
           (PDict [("data"%string, PList [fresh_pool; negative_count_pool])])
           [fresh_pool; negative_count_pool] picks eq_refl Hok).
Defined.

Lemma scan_top_ten_witness :
  exists rs,
    collect_eligible parse_decimal iso_basic NOW_2025_10_14 (repeat fresh_pool 15) = Ok rs /\
    List.length rs = 15%nat /\
    scan_geckoterminal parse_decimal iso_basic NOW_2025_10_14 envelope_15 =
      Ok (map (fun r => Report (snd r)) (firstn RESULT_CAP (sort_desc rs))).
Proof.
  set (rs := match collect_eligible parse_decimal iso_basic NOW_2025_10_14
                     (repeat fresh_pool 15) with Ok r => r | Raise _ => [] end).
  assert (Hc : collect_eligible parse_decimal iso_basic NOW_2025_10_14
                 (repeat fresh_pool 15) = Ok rs) by (vm_compute; reflexivity).
  exists rs; split; [exact Hc|]; split; [vm_compute; reflexivity|].
  exact (proj1 (scan_top_ten parse_decimal iso_basic NOW_2025_10_14 envelope_15
                  (repeat fresh_pool 15) rs eq_refl Hc ltac:(vm_compute; discriminate))).
Defined.

Lemma scan_one_bad_record_witness :
  exists e, scan_reply parse_decimal iso_basic NOW_2025_10_14
    (PDict [("data"%string, PList [fresh_pool; PInt 7])]) = RError e.
Proof.
  destruct (scan_one_bad_record parse_decimal iso_basic NOW_2025_10_14
              [("data"%string, PList [fresh_pool; PInt 7])] [fresh_pool; PInt 7] (PInt 7)
              eq_refl ltac:(right; left; reflexivity)
              ltac:(left; exists AttributeError; reflexivity)) as [e [_ H]].
  exists e; exact H.
Defined.

Lemma scan_ignores_rejected_witness :
  scan_geckoterminal parse_decimal iso_basic NOW_2025_10_14
    (PDict [("data"%string, PList [fresh_pool; PDict [("attributes"%string, PDict [])];
                                   fresh_pool])]) =
  scan_geckoterminal parse_decimal iso_basic NOW_2025_10_14
    (PDict [("data"%string, PList [fresh_pool; fresh_pool])]).
Proof.
  destruct (summarize_pool parse_decimal iso_basic NOW_2025_10_14
              (PDict [("attributes"%string, PDict [])])) as [[t m]|e] eqn:E;
    [|discriminate E].
  apply (scan_ignores_rejected parse_decimal iso_basic NOW_2025_10_14 _ _
           [fresh_pool] [fresh_pool] (PDict [("attributes"%string, PDict [])]) t m E).
  - injection E as _ <-; reflexivity.
  - reflexivity.
  - reflexivity.
Defined.

Lemma search_reply_size_witness :
  exists ls,
    search_reply parse_decimal
      (PDict [("pairs"%string, PList (repeat (dex_pair "pulse") 12))]) = RText ls /\
    (ls = [Msg NO_RESULTS] \/
     ((1 <= List.length ls <= 10)%nat /\ Forall (fun l => exists t, l = SearchLine t) ls)).
Proof.
  set (ls := match search_reply parse_decimal
                     (PDict [("pairs"%string, PList (repeat (dex_pair "pulse") 12))]) with
             | RText l => l | RError _ => [] end).
  assert (H : search_reply parse_decimal
                (PDict [("pairs"%string, PList (repeat (dex_pair "pulse") 12))]) = RText ls)
    by (vm_compute; reflexivity).
  exists ls; split; [exact H|].
  exact (search_reply_size parse_decimal _ ls H).
Defined.

Lemma search_pair_defaults_witness :
  exists f, parse_decimal "0.5" = Some f /\
    search_pair parse_decimal
      (PDict [("chainId"%string, PStr "pulse");
              ("baseToken"%string, PDict [("symbol"%string, PStr "DOGE")]);
              ("quoteToken"%string, PDict [("symbol"%string, PStr "WPLS")]);
              ("priceUsd"%string, PStr "0.5")]) =
      Ok (Some (mkst (PStr "DOGE") (PStr "WPLS") f (Fin 0) (PInt 0) PNone)).
Proof.
  destruct (parse_decimal "0.5") as [f|] eqn:Ef; [|discriminate Ef].
  exists f; split; [reflexivity|].
  apply (search_pair_defaults parse_decimal _
           [("symbol"%string, PStr "DOGE")] [("symbol"%string, PStr "WPLS")]
           (PStr "DOGE") (PStr "WPLS") (PStr "0.5") f); try reflexivity.
  unfold py_float; cbv beta iota; rewrite Ef; reflexivity.
Defined.

Lemma search_missing_price_error_witness :
  exists e, search_reply parse_decimal
    (PDict [("pairs"%string, PList [dex_pair "pulsechain";
                                    PDict [("chainId"%string, PStr "pulsechain")]])])
    = RError e.
Proof.
  apply (search_missing_price_error parse_decimal _ [("chainId"%string, PStr "pulsechain")]
           [dex_pair "pulsechain"; PDict [("chainId"%string, PStr "pulsechain")]]);
    [reflexivity | right; left; reflexivity | reflexivity | reflexivity].
Defined.
